(** * Jhimki Stock Assistant: a shallow embedding of the message pipeline

    The development follows [api/bot_service.py] (sessions, intent
    extraction, action routing, response assembly) and
    [api/pinecone_search.py] (filter construction and the retrieval
    adapter).  Python values are modelled by an inductive type of JSON-like
    values, Python [str] by lists of Unicode code points, Python [float] by
    IEEE binary64 values ([spec_float] at precision 53), dictionaries by
    finite maps, and the effects of the service (session store, clock,
    collaborator calls, exceptions) by a state-and-exception monad. *)

From Stdlib Require Import ZArith String Ascii SpecFloat.
From stdpp Require Import gmap strings list.

#[local] Set Warnings "-register-all".
#[local] Open Scope Z_scope.

(** ** Python strings *)

(** A Python [str] is a sequence of code points. *)
Abbreviation pystr := (list N).

(** [str "abc"] is the literal made of the (ASCII) characters given. *)
Definition str (s : string) : pystr :=
  (fun a => N_of_ascii a) <$> list_ascii_of_string s.

(** [str.isspace] on one code point: bidirectional classes WS, B, S and
    general category Zs, as CPython's [_PyUnicode_IsWhitespace]. *)
Definition py_isspace (c : N) : bool :=
  ((9 <=? c) && (c <=? 13) || (28 <=? c) && (c <=? 32)
   || (c =? 133) || (c =? 160) || (c =? 5760)
   || (8192 <=? c) && (c <=? 8202)
   || (c =? 8232) || (c =? 8233) || (c =? 8239) || (c =? 8287)
   || (c =? 12288))%N.

Fixpoint lstrip (s : pystr) : pystr :=
  match s with
  | c :: s' => if py_isspace c then lstrip s' else s
  | [] => []
  end.

(** [s.strip()] with no argument. *)
Definition py_strip (s : pystr) : pystr :=
  reverse (lstrip (reverse (lstrip s))).

(** ** Python values *)

Inductive value : Type :=
| VNone
| VBool (b : bool)
| VInt (z : Z)
| VFloat (f : spec_float)
| VStr (s : pystr)
| VList (l : list value)
| VDict (d : gmap pystr value).

Abbreviation pydict := (gmap pystr value).

(** Binary64 literals of the source, as mantissa and exponent. *)
Definition float_0_5 : spec_float := S754_finite false 4503599627370496 (-53).
Definition float_0_6 : spec_float := S754_finite false 5404319552844595 (-53).
Definition float_0_3 : spec_float := S754_finite false 5404319552844595 (-54).
Definition float_0_7 : spec_float := S754_finite false 6305039478318694 (-53).

Definition float_is_zero (f : spec_float) : bool :=
  match f with S754_zero _ => true | _ => false end.

(** Truth value testing, [bool(v)]. *)
Definition py_truthy (v : value) : bool :=
  match v with
  | VNone => false
  | VBool b => b
  | VInt z => negb (z =? 0)
  | VFloat f => negb (float_is_zero f)
  | VStr s => match s with [] => false | _ => true end
  | VList l => match l with [] => false | _ => true end
  | VDict d => negb (bool_decide (d = ∅))
  end.

(** [v == "literal"] for a string literal: only a [str] equal to it. *)
Definition py_eq_str (v : value) (s : pystr) : bool :=
  match v with
  | VStr t => bool_decide (t = s)
  | _ => false
  end.

(** [d.get(k)] and [d.get(k, default)]. *)
Definition dict_get (d : pydict) (k : pystr) : value := default VNone (d !! k).
Definition dict_get_or (d : pydict) (k : pystr) (dflt : value) : value :=
  default dflt (d !! k).

(** ** Exceptions and outcomes *)

Inductive exn : Type :=
| TypeError
| AttributeError
| ValueError
| OverflowError
| KeyError
| CollaboratorError (msg : pystr).

Inductive outcome (A : Type) : Type :=
| Ret (a : A)
| Raise (e : exn).
Arguments Ret {A} a.
Arguments Raise {A} e.

Definition obind {A B} (x : outcome A) (k : A -> outcome B) : outcome B :=
  match x with
  | Ret a => k a
  | Raise e => Raise e
  end.

(** [v.get(k, default)] on a value that may not be a dictionary. *)
Definition attr_get (v : value) (k : pystr) (dflt : value) : outcome value :=
  match v with
  | VDict d => Ret (dict_get_or d k dflt)
  | _ => Raise AttributeError
  end.

(** ** Number conversion and formatting *)

Module Num.

(** [n / d] rounded to the nearest integer, ties to even; [d] positive. *)
Definition div_half_even (n d : Z) : Z :=
  let q := n `div` d in
  let r := n `mod` d in
  if (d <? 2 * r) || ((2 * r =? d) && Z.odd q) then q + 1 else q.

(** The integer nearest to [m * 2^e * k], ties to even. *)
Definition scaled_half_even (m : positive) (e : Z) (k : Z) : Z :=
  if 0 <=? e then Z.pos m * k * 2 ^ e
  else div_half_even (Z.pos m * k) (2 ^ (- e)).

(** [float(z)] for an integer: the nearest binary64 value. *)
Definition float_of_Z (z : Z) : spec_float := binary_normalize 53 1024 z 0 false.

Definition is_infinity (f : spec_float) : bool :=
  match f with S754_infinity _ => true | _ => false end.

Fixpoint uint_codes (u : Decimal.uint) : pystr :=
  match u with
  | Decimal.Nil => []
  | Decimal.D0 u => 48%N :: uint_codes u
  | Decimal.D1 u => 49%N :: uint_codes u
  | Decimal.D2 u => 50%N :: uint_codes u
  | Decimal.D3 u => 51%N :: uint_codes u
  | Decimal.D4 u => 52%N :: uint_codes u
  | Decimal.D5 u => 53%N :: uint_codes u
  | Decimal.D6 u => 54%N :: uint_codes u
  | Decimal.D7 u => 55%N :: uint_codes u
  | Decimal.D8 u => 56%N :: uint_codes u
  | Decimal.D9 u => 57%N :: uint_codes u
  end.

(** The decimal digits of a natural number. *)
Definition digits (n : N) : pystr := uint_codes (N.to_uint n).

(** [str(z)] for an integer. *)
Definition str_of_Z (z : Z) : pystr :=
  if z <? 0 then 45%N :: digits (Z.to_N (- z)) else digits (Z.to_N z).

Fixpoint group3 (l : pystr) : pystr :=
  match l with
  | a :: b :: c :: (_ :: _) as rest => a :: b :: c :: 44%N :: group3 rest
  | _ => l
  end.

(** The digits with a comma between groups of three, from the right. *)
Definition with_commas (ds : pystr) : pystr := reverse (group3 (reverse ds)).

(** [f"{f:,.0f}"]. *)
Definition format_comma_0f (f : spec_float) : pystr :=
  match f with
  | S754_nan => str "nan"
  | S754_infinity neg => if neg then str "-inf" else str "inf"
  | S754_zero neg => if neg then str "-0" else str "0"
  | S754_finite neg m e =>
      (if neg then [45%N] else [])
        ++ with_commas (digits (Z.to_N (scaled_half_even m e 1)))
  end.

(** [round(f, 4)] on a float: the binary64 value nearest to the decimal
    with four fractional digits nearest to [f], ties to even. *)
Definition round4 (f : spec_float) : spec_float :=
  match f with
  | S754_finite neg m e =>
      match scaled_half_even m e 10000 with
      | Z.pos r => SFdiv 53 1024 (S754_finite neg r 0) (S754_finite false 10000 0)
      | _ => S754_zero neg
      end
  | _ => f
  end.

(** Exact comparison [f < g] of two binary64 values. *)
Definition float_ltb (f g : spec_float) : bool :=
  let signed (neg : bool) (m : positive) := if neg then Z.neg m else Z.pos m in
  match f, g with
  | S754_nan, _ | _, S754_nan => false
  | S754_infinity s, S754_infinity t => s && negb t
  | S754_infinity s, _ => s
  | _, S754_infinity t => negb t
  | S754_zero _, S754_zero _ => false
  | S754_zero _, S754_finite t _ _ => negb t
  | S754_finite s _ _, S754_zero _ => s
  | S754_finite s m e, S754_finite t n k =>
      let b := Z.min e k in
      signed s m * 2 ^ (e - b) <? signed t n * 2 ^ (k - b)
  end.

End Num.

(** ** Ordering numbers *)

(** Exact comparison [z < f] of an integer with a binary64 value. *)
Definition Z_lt_float (z : Z) (f : spec_float) : bool :=
  match f with
  | S754_nan => false
  | S754_infinity neg => negb neg
  | S754_zero _ => z <? 0
  | S754_finite neg m e =>
      let v := if neg then Z.neg m else Z.pos m in
      if 0 <=? e then z <? v * 2 ^ e else z * 2 ^ (- e) <? v
  end.

(** [v < f] for a float [f]; ordering a non-number raises [TypeError]. *)
Definition py_lt_float (v : value) (f : spec_float) : outcome bool :=
  match v with
  | VBool b => Ret (Z_lt_float (if b then 1 else 0) f)
  | VInt z => Ret (Z_lt_float z f)
  | VFloat g => Ret (Num.float_ltb g f)
  | _ => Raise TypeError
  end.

(** ** Conversation sessions *)

Module ConversationSession.

(** One entry of [self.messages]. *)
Record message : Type := Message {
  role : pystr;
  content : value;
  timestamp : N
}.

Record t : Type := Session {
  session_id : pystr;
  created_at : N;
  last_updated : N;
  messages : list message;
  context : pydict
}.

(** [__init__]; the two instants are the clock readings taken. *)
Definition init (sid : pystr) (t0 t1 : N) : t :=
  Session sid t0 t1 [] ∅.

(** [add_message]; [t0] stamps the entry, [t1] the session. *)
Definition add_message (s : t) (r : pystr) (c : value) (t0 t1 : N) : t :=
  Session (session_id s) (created_at s) t1
          (messages s ++ [Message r c t0]) (context s).

(** [l[start:]] for a Python list and a possibly negative [start]. *)
Definition slice_from {A} (l : list A) (start : Z) : list A :=
  let len := Z.of_nat (length l) in
  let i := if start <? 0 then Z.max (len + start) 0 else Z.min start len in
  drop (Z.to_nat i) l.

(** [get_context_window]: the entries carry only role and content. *)
Definition get_context_window (s : t) (max_messages : Z)
  : list (pystr * value) :=
  let recent :=
    if Z.of_nat (length (messages s)) >? max_messages
    then slice_from (messages s) (- max_messages)
    else messages s in
  (fun msg => (role msg, content msg)) <$> recent.

(** [update_context]. *)
Definition update_context (s : t) (k : pystr) (v : value) (t0 : N) : t :=
  Session (session_id s) (created_at s) t0 (messages s)
          (<[k := v]> (context s)).

End ConversationSession.

(** ** Collaborators and service state *)

(** A request to [openai_client.chat.completions.create]. *)
Record chat_request : Type := ChatRequest {
  model : pystr;
  chat_messages : list (pystr * value);
  temperature : spec_float;
  json_object_format : bool;
  max_tokens : option Z
}.

(** A call of [index.search]. *)
Record index_query : Type := IndexQuery {
  namespace : pystr;
  inputs_text : value;
  top_k : Z;
  fields : list pystr
}.

(** What [index.search] hands back: whether the object is truthy, and its
    [result] attribute when it has one. *)
Record search_response : Type := SearchResponse {
  response_truthy : bool;
  response_result : option value
}.

(** The calls that leave the process. *)
Inductive event : Type :=
| EvChat (req : chat_request)
| EvPineconeInit
| EvIndexSearch (q : index_query).

(** The collaborators and library functions the service relies on.  Each
    collaborator answers from the calls made so far and the request, so
    that two calls with the same request may differ. *)
Record world : Type := World {
  (** the n-th reading of [datetime.now()] *)
  clock : nat -> N;
  (** [create(...).choices[0].message.content] *)
  chat_completions_create : list event -> chat_request -> outcome value;
  (** [json.loads] *)
  json_loads : value -> outcome value;
  (** [Pinecone(api_key=...)] followed by [pc.Index(index_name)] *)
  pinecone_connect : list event -> outcome unit;
  (** [index.search(namespace=..., query=..., fields=...)] *)
  index_search : list event -> index_query -> outcome search_response;
  (** [repr] of a value that is not a string *)
  py_repr : value -> pystr;
  (** [float(s)] for a string, [None] when it raises [ValueError] *)
  float_of_str : pystr -> option spec_float
}.

(** A hit turned into an object with [id], [score] and [metadata]. *)
Record Match : Type := MkMatch {
  id : value;
  score : value;
  metadata : value
}.

(** The state a request runs in: the [BotService] object with its
    [PineconeSearchService], the calls made and the clock readings taken. *)
Record service : Type := Service {
  sessions : gmap pystr ConversationSession.t;
  _initialized : bool;
  trace : list event;
  ticks : nat
}.

(** Computations that read and change the service and may raise. *)
Definition M (A : Type) : Type := service -> outcome A * service.

Definition ret {A} (a : A) : M A := fun st => (Ret a, st).
Definition raise {A} (e : exn) : M A := fun st => (Raise e, st).
Definition bind {A B} (m : M A) (k : A -> M B) : M B :=
  fun st => match m st with
            | (Ret a, st') => k a st'
            | (Raise e, st') => (Raise e, st')
            end.
(** [try: m except Exception as e: h e]. *)
Definition try_except {A} (m : M A) (h : exn -> M A) : M A :=
  fun st => match m st with
            | (Ret a, st') => (Ret a, st')
            | (Raise e, st') => h e st'
            end.
Definition lift {A} (x : outcome A) : M A := fun st => (x, st).

Declare Scope py_scope.
Delimit Scope py_scope with py.
Notation "'do' x <- m ; k" := (bind m (fun x => k))
  (at level 10, x name, m at level 100, k at level 200,
   format "'[v' 'do'  x  <-  m ; '/' k ']'") : py_scope.
Notation "'run' m ; k" := (bind m (fun _ => k))
  (at level 10, m at level 100, k at level 200,
   format "'[v' 'run'  m ; '/' k ']'") : py_scope.
#[local] Open Scope py_scope.

(** [datetime.now()]. *)
Definition now (w : world) : M N :=
  fun st => (Ret (clock w (ticks st)),
             Service (sessions st) (_initialized st) (trace st) (S (ticks st))).

Definition emit (ev : event) : M unit :=
  fun st => (Ret tt,
             Service (sessions st) (_initialized st) (trace st ++ [ev]) (ticks st)).

Definition get_trace : M (list event) := fun st => (Ret (trace st), st).

Definition get_initialized : M bool := fun st => (Ret (_initialized st), st).

Definition set_initialized (b : bool) : M unit :=
  fun st => (Ret tt, Service (sessions st) b (trace st) (ticks st)).

(** ** The retrieval adapter, [PineconeSearchService] *)

Module PineconeSearchService.

Abbreviation filter := (gmap pystr pydict).

Definition set_if (c : value) (k : pystr) (fd : filter) : filter :=
  if py_truthy c then <[k := {[str "$eq" := c]}]> fd else fd.

(** The price branch of [_build_filter]. *)
Definition price_filter (price_range : value) (fd : filter) : filter :=
  if py_truthy price_range then
    match price_range with
    | VDict pr =>
        let fd :=
          if py_truthy (dict_get pr (str "min"))
          then <[str "price" := {[str "$gte" := dict_get pr (str "min")]}]> fd
          else fd in
        if py_truthy (dict_get pr (str "max")) then
          match fd !! str "price" with
          | Some c =>
              <[str "price" := <[str "$lte" := dict_get pr (str "max")]> c]> fd
          | None =>
              <[str "price" := {[str "$lte" := dict_get pr (str "max")]}]> fd
          end
        else fd
    | _ => fd
    end
  else fd.

Definition _build_filter (intent_data : pydict) : outcome filter :=
  let filter_dict : filter := ∅ in
  let category := dict_get intent_data (str "category") in
  let subcategory := dict_get intent_data (str "subcategory") in
  let attributes := dict_get_or intent_data (str "attributes") (VDict ∅) in
  let filter_dict := set_if category (str "category") filter_dict in
  let filter_dict := set_if subcategory (str "subcategory") filter_dict in
  match attributes with
  | VDict attrs =>
      let filter_dict := set_if (dict_get attrs (str "color")) (str "color") filter_dict in
      let filter_dict := set_if (dict_get attrs (str "fabric")) (str "fabric") filter_dict in
      let filter_dict :=
        set_if (dict_get attrs (str "technique")) (str "technique") filter_dict in
      let filter_dict :=
        set_if (dict_get attrs (str "pattern")) (str "pattern") filter_dict in
      Ret (price_filter (dict_get attrs (str "price_range")) filter_dict)
  | _ => Raise AttributeError
  end.

(** [for hit in hits]: a list gives its items, a dictionary its keys, a
    string its characters; anything else is not iterable. *)
Definition py_iter (v : value) : outcome (list value) :=
  match v with
  | VList l => Ret l
  | VDict d => Ret ((fun kv => VStr kv.1) <$> map_to_list d)
  | VStr s => Ret ((fun c => VStr [c]) <$> s)
  | _ => Raise TypeError
  end.

Fixpoint hits_to_matches (hits : list value) : outcome (list Match) :=
  match hits with
  | [] => Ret []
  | hit :: rest =>
      obind (attr_get hit (str "_id") VNone) (fun i =>
      obind (attr_get hit (str "_score") (VInt 0)) (fun s =>
      obind (attr_get hit (str "fields") (VDict ∅)) (fun f =>
      obind (hits_to_matches rest) (fun ms =>
      Ret (MkMatch i s f :: ms)))))
  end.

Definition _convert_results_to_matches (results : search_response)
  : outcome (list Match) :=
  match response_result results with
  | Some r =>
      if response_truthy results && py_truthy r then
        obind (attr_get r (str "hits") (VList [])) (fun hits =>
        obind (py_iter hits) hits_to_matches)
      else Ret []
  | None => Ret []
  end.

(** [not query_text or not query_text.strip()]. *)
Definition blank_query (query_text : value) : outcome bool :=
  if negb (py_truthy query_text) then Ret true
  else match query_text with
       | VStr s => Ret (negb (py_truthy (VStr (py_strip s))))
       | _ => Raise AttributeError
       end.

(** [self._build_filter(intent_data) if intent_data else {}]. *)
Definition filter_for (intent_data : option pydict) : outcome filter :=
  match intent_data with
  | Some d => if py_truthy (VDict d) then _build_filter d else Ret ∅
  | None => Ret ∅
  end.

Section WithWorld.
Context (w : world).

(** Lazy construction of the client and of the index handle. *)
Definition _initialize : M unit :=
  do ready <- get_initialized;
  if ready then ret tt
  else
    do tr <- get_trace;
    run emit EvPineconeInit;
    run lift (pinecone_connect w tr);
    set_initialized true.

Definition search (query_text : value) (intent_data : option pydict)
           (top_k : Z) : M (list Match) :=
  run _initialize;
  do blank <- lift (blank_query query_text);
  if blank then ret []
  else
    do filter_dict <- lift (filter_for intent_data);
    try_except
      (let query_params :=
         IndexQuery (str "__default__") query_text top_k [str "*"] in
       do tr <- get_trace;
       run emit (EvIndexSearch query_params);
       do results <- lift (index_search w tr query_params);
       lift (_convert_results_to_matches results))
      (fun _ => ret []).

End WithWorld.

End PineconeSearchService.

(** ** The orchestrator, [BotService] *)

Module BotService.

Definition ACTION_SEARCH : pystr := str "search".
Definition ACTION_CLARIFY : pystr := str "clarify".
Definition ACTION_CHAT : pystr := str "chat".

(** The dictionary [process_message] returns; [intent] is present on
    the paths that set it and [error] on the error path. *)
Record Response : Type := MkResponse {
  response : value;
  products : list pydict;
  action : pystr;
  intent : option pydict;
  error : option exn
}.

(** The three system prompts are long string constants that the service
    only passes on to the language model. *)
Record system_prompts : Type := SystemPrompts {
  intent_system_prompt : pystr;
  chat_system_prompt : pystr;
  search_system_prompt : pystr
}.

(** *** Fixed replies *)

Definition apology_message : pystr :=
  str "I apologize, but I encountered an error processing your request. Please try again.".

Definition generic_clarification : pystr :=
  str "I want to help you find the perfect item! Could you provide more details about what you're looking for? For example, the type of clothing, color, fabric, or occasion?".

Definition boundary_message : pystr :=
  str "I'm only able to help with Jhimki's product catalogue and availability. How can I help you find something from our collection today?".

(** Between the two sentences the literal of the source holds the three
    code points U+00F0, U+0178 and U+2122. *)
Definition fallback_greeting : pystr :=
  str "Welcome to Jhimki! " ++ [240%N; 376%N; 8482%N]
    ++ str " We specialize in handcrafted sarees, suit sets, and fabrics. What can I help you find today?".

(** The currency mark as the literals of the source hold it: the three
    code points U+00E2, U+201A and U+00B9. *)
Definition currency_mark : pystr := [226%N; 8218%N; 185%N].

(** *** Session store *)

Definition get_sessions : M (gmap pystr ConversationSession.t) :=
  fun st => (Ret (sessions st), st).

Definition set_session (sid : pystr) (s : ConversationSession.t) : M unit :=
  fun st => (Ret tt, Service (<[sid := s]> (sessions st)) (_initialized st)
                             (trace st) (ticks st)).

(** The session object a request holds: the entry under its key.  Inside
    [process_message] the entry exists from [get_or_create_session] on. *)
Definition the_session (sid : pystr) : M ConversationSession.t :=
  do ss <- get_sessions;
  match ss !! sid with
  | Some s => ret s
  | None => raise KeyError
  end.

Definition clear_session (sid : pystr) : M unit :=
  fun st => (Ret tt, Service (delete sid (sessions st)) (_initialized st)
                             (trace st) (ticks st)).

(** What [get_session_info] reports about a session. *)
Record session_info : Type := SessionInfo {
  info_session_id : pystr;
  info_created_at : N;
  info_last_updated : N;
  message_count : nat;
  info_context : pydict
}.

Definition get_session_info (sid : pystr) : M (option session_info) :=
  do ss <- get_sessions;
  ret (match ss !! sid with
       | Some s =>
           Some (SessionInfo (ConversationSession.session_id s)
                             (ConversationSession.created_at s)
                             (ConversationSession.last_updated s)
                             (length (ConversationSession.messages s))
                             (ConversationSession.context s))
       | None => None
       end).

(** *** Values as text *)

Section Text.
Context (w : world).

(** [str(v)], as an f-string field renders it. *)
Definition py_str (v : value) : pystr :=
  match v with
  | VStr s => s
  | VNone => str "None"
  | VBool b => if b then str "True" else str "False"
  | VInt z => Num.str_of_Z z
  | _ => py_repr w v
  end.

(** [float(v)]. *)
Definition py_float (v : value) : outcome spec_float :=
  match v with
  | VFloat f => Ret f
  | VInt z =>
      let f := Num.float_of_Z z in
      if Num.is_infinity f then Raise OverflowError else Ret f
  | VBool b => Ret (Num.float_of_Z (if b then 1 else 0))
  | VStr s => match float_of_str w s with
              | Some f => Ret f
              | None => Raise ValueError
              end
  | _ => Raise TypeError
  end.

(** The price text of [_format_products], with the currency mark before
    the amount. *)
Definition price_formatted (price_value : value) : outcome pystr :=
  if negb (py_eq_str price_value (str "N/A")) && py_truthy price_value then
    match py_float price_value with
    | Ret f => Ret (currency_mark ++ Num.format_comma_0f f)
    | Raise ValueError | Raise TypeError => Ret (py_str price_value)
    | Raise e => Raise e
    end
  else Ret (str "N/A").

End Text.

(** [round(v, 4)]. *)
Definition py_round4 (v : value) : outcome value :=
  match v with
  | VFloat f => Ret (VFloat (Num.round4 f))
  | VInt z => Ret (VInt z)
  | VBool b => Ret (VInt (if b then 1 else 0))
  | _ => Raise TypeError
  end.

(** *** Product records *)

Definition nl : pystr := [10%N].

(** [sep.join(parts)]. *)
Fixpoint join (sep : pystr) (parts : list pystr) : pystr :=
  match parts with
  | [] => []
  | [p] => p
  | p :: rest => p ++ sep ++ join sep rest
  end.

Section Products.
Context (w : world).

(** The body of the loop of [_format_products]. *)
Definition format_product (m : Match) : outcome pydict :=
  match metadata m with
  | VDict md =>
      obind (price_formatted w (dict_get_or md (str "price") (VStr (str "N/A"))))
        (fun price =>
      obind (py_round4 (score m)) (fun rounded =>
      Ret (list_to_map
        [ (str "id", id m);
          (str "product_id", dict_get_or md (str "product_id") (id m));
          (str "name", dict_get_or md (str "product_name") (VStr (str "Unknown")));
          (str "price", VStr price);
          (str "category", dict_get_or md (str "category") (VStr []));
          (str "subcategory", dict_get_or md (str "subcategory") (VStr []));
          (str "color", dict_get_or md (str "color") (VStr []));
          (str "fabric", dict_get_or md (str "fabric") (VStr []));
          (str "technique", dict_get_or md (str "technique") (VStr []));
          (str "pattern", dict_get_or md (str "pattern") (VStr []));
          (str "description", dict_get_or md (str "description") (VStr []));
          (str "in_stock", dict_get_or md (str "in_stock") (VBool true));
          (str "colors_available",
           dict_get_or md (str "colors_available") (VStr []));
          (str "score", rounded) ])))
  | _ => Raise AttributeError
  end.

Fixpoint _format_products (matches : list Match) : outcome (list pydict) :=
  match matches with
  | [] => Ret []
  | m :: rest =>
      obind (format_product m) (fun product =>
      obind (_format_products rest) (fun ps => Ret (product :: ps)))
  end.

Definition in_stock_status (product : pydict) : pystr :=
  if py_truthy (dict_get_or product (str "in_stock") (VBool true))
  then str "In Stock" else str "Out of Stock".

(** The summary of the product at position [i] of the prompt. *)
Definition product_summary (i : nat) (product : pydict) : pystr :=
  let field k dflt := py_str w (dict_get_or product (str k) (VStr dflt)) in
  nl ++ str "Product " ++ Num.str_of_Z (Z.of_nat i + 1) ++ str ":" ++ nl
  ++ str "- Name: " ++ field "name"%string (str "Unknown") ++ nl
  ++ str "- Category: " ++ field "category"%string []
  ++ str " / " ++ field "subcategory"%string [] ++ nl
  ++ str "- Fabric: " ++ field "fabric"%string [] ++ nl
  ++ str "- Technique: " ++ field "technique"%string [] ++ nl
  ++ str "- Color: " ++ field "color"%string [] ++ nl
  ++ str "- Pattern: " ++ field "pattern"%string [] ++ nl
  ++ str "- Price: " ++ field "price"%string (str "N/A") ++ nl
  ++ str "- Stock: " ++ in_stock_status product ++ nl
  ++ str "- Description: " ++ field "description"%string [] ++ nl.

Definition product_summaries (products : list pydict) : list pystr :=
  imap product_summary (take 5 products).

(** The search terms echoed to the model, from the attributes. *)
Definition search_terms (attributes : pydict) : list pystr :=
  let term k (pre : pystr) :=
    let v := dict_get attributes (str k) in
    if py_truthy v then [pre ++ py_str w v] else [] in
  term "color"%string (str "color: ")
  ++ term "fabric"%string (str "fabric: ")
  ++ term "technique"%string (str "technique: ")
  ++ term "price_max"%string (str "under " ++ currency_mark).

Definition query_description (intent : pydict) : outcome pystr :=
  match dict_get_or intent (str "attributes") (VDict ∅) with
  | VDict attributes =>
      match search_terms attributes with
      | [] => Ret (py_str w (dict_get_or intent (str "search_query")
                                         (VStr (str "your request"))))
      | terms => Ret (join (str ", ") terms)
      end
  | _ => Raise AttributeError
  end.

Definition search_user_prompt (qd : pystr) (products : list pydict) : pystr :=
  match products with
  | [] =>
      str "User searched for: " ++ qd ++ nl
      ++ str "No matching products were found in our database." ++ nl ++ nl
      ++ str "Generate a polite response explaining we don't have that exact item, and suggest they:" ++ nl
      ++ str "1. Try different color/fabric options" ++ nl
      ++ str "2. Browse similar categories" ++ nl
      ++ str "Keep it brief and helpful."
  | _ =>
      str "User searched for: " ++ qd ++ nl
      ++ str "Found " ++ Num.str_of_Z (Z.of_nat (length products))
      ++ str " products from our Pinecone database." ++ nl ++ nl
      ++ str "RETRIEVED PRODUCTS FROM DATABASE:" ++ nl
      ++ join nl (product_summaries products) ++ nl ++ nl
      ++ str "Generate a warm response following the format rules. List 2-4 best matches (prioritize in-stock items)." ++ nl
      ++ str "Use ONLY the exact data provided above. Do not invent details."
  end.

Definition search_fallback (qd : pystr) (products : list pydict) : pystr :=
  match products with
  | [] => str "I couldn't find any products matching " ++ qd
          ++ str ". Would you like to try a different color or style?"
  | _ => str "I found " ++ Num.str_of_Z (Z.of_nat (length products))
         ++ str " items matching your search. Here are the results!"
  end.

End Products.

(** *** The pipeline *)

Section Pipeline.
Context (w : world) (prompts : system_prompts).

Definition get_or_create_session (sid : pystr) : M unit :=
  do ss <- get_sessions;
  match ss !! sid with
  | Some _ => ret tt
  | None =>
      do t0 <- now w;
      do t1 <- now w;
      set_session sid (ConversationSession.init sid t0 t1)
  end.

(** [session.add_message(role, content)] on the session of the request. *)
Definition add_message (sid : pystr) (role : pystr) (content : value) : M unit :=
  do s <- the_session sid;
  do t0 <- now w;
  do t1 <- now w;
  set_session sid (ConversationSession.add_message s role content t0 t1).

Definition update_context (sid : pystr) (k : pystr) (v : value) : M unit :=
  do s <- the_session sid;
  do t0 <- now w;
  set_session sid (ConversationSession.update_context s k v t0).

Definition get_context_window (sid : pystr) (max_messages : Z)
  : M (list (pystr * value)) :=
  do s <- the_session sid;
  ret (ConversationSession.get_context_window s max_messages).

(** One call of the language model, recorded in the trace. *)
Definition create (req : chat_request) : M value :=
  do tr <- get_trace;
  run emit (EvChat req);
  lift (chat_completions_create w tr req).

Definition default_intent (user_message : pystr) : pydict :=
  list_to_map
    [ (str "intent_type", VStr (str "general_question"));
      (str "search_query", VStr user_message);
      (str "confidence", VFloat float_0_5);
      (str "needs_clarification", VBool false) ].

Definition intent_request (context_messages : list (pystr * value))
           (user_message : pystr) : chat_request :=
  ChatRequest (str "gpt-4o-mini")
    ([(str "system", VStr (intent_system_prompt prompts))]
       ++ context_messages ++ [(str "user", VStr user_message)])
    float_0_3 true None.

Definition _extract_intent (user_message : pystr) (sid : pystr) : M pydict :=
  do context_messages <- get_context_window sid 5;
  try_except
    (do intent_json <- create (intent_request context_messages user_message);
     do parsed <- lift (json_loads w intent_json);
     match parsed with
     | VDict intent =>
         run (if py_truthy (dict_get intent (str "attributes"))
              then update_context sid (str "last_attributes")
                                  (dict_get intent (str "attributes"))
              else ret tt);
         run (if py_truthy (dict_get intent (str "category"))
              then update_context sid (str "last_category")
                                  (dict_get intent (str "category"))
              else ret tt);
         ret intent
     | _ => raise AttributeError
     end)
    (fun _ => ret (default_intent user_message)).

(** [_decide_action]; the source also takes the session and does not use
    it, and the function touches no state. *)
Definition _decide_action (intent : pydict) : outcome pystr :=
  let intent_type :=
    dict_get_or intent (str "intent_type") (VStr (str "general_question")) in
  let needs_clarification :=
    dict_get_or intent (str "needs_clarification") (VBool false) in
  let confidence := dict_get_or intent (str "confidence") (VFloat float_0_5) in
  if py_eq_str intent_type (str "off_topic") then Ret ACTION_CHAT
  else if py_truthy needs_clarification then Ret ACTION_CLARIFY
  else
    obind (py_lt_float confidence float_0_6) (fun low =>
    if low then Ret ACTION_CLARIFY
    else if py_eq_str intent_type (str "product_search") then Ret ACTION_SEARCH
    else Ret ACTION_CHAT).

Definition search_request (user_prompt : pystr) : chat_request :=
  ChatRequest (str "gpt-4o-mini")
    [ (str "system", VStr (search_system_prompt prompts));
      (str "user", VStr user_prompt) ]
    float_0_3 false (Some 500).

Definition _generate_search_response (intent : pydict)
           (products : list pydict) : M value :=
  do qd <- lift (query_description w intent);
  try_except
    (create (search_request (search_user_prompt w qd products)))
    (fun _ => ret (VStr (search_fallback qd products))).

Definition _execute_search (intent : pydict) : M Response :=
  let search_query := dict_get_or intent (str "search_query") (VStr []) in
  let intent_data : pydict :=
    list_to_map
      [ (str "category", dict_get intent (str "category"));
        (str "subcategory", dict_get intent (str "subcategory"));
        (str "attributes", dict_get_or intent (str "attributes") (VDict ∅)) ] in
  do matches <- PineconeSearchService.search w search_query (Some intent_data) 10;
  do products <- lift (_format_products w matches);
  do response_message <- _generate_search_response intent products;
  ret (MkResponse response_message products ACTION_SEARCH (Some intent) None).

Definition _execute_clarify (intent : pydict) : Response :=
  let clarification := dict_get intent (str "clarification_question") in
  let clarification :=
    if negb (py_truthy clarification) then VStr generic_clarification
    else clarification in
  MkResponse clarification [] ACTION_CLARIFY (Some intent) None.

Definition chat_request_of (context_messages : list (pystr * value))
           (user_message : pystr) : chat_request :=
  ChatRequest (str "gpt-4o-mini")
    ([(str "system", VStr (chat_system_prompt prompts))]
       ++ context_messages ++ [(str "user", VStr user_message)])
    float_0_7 false (Some 150).

Definition _execute_chat (intent : pydict) (user_message : pystr)
           (sid : pystr) : M Response :=
  do context_messages <- get_context_window sid 5;
  let intent_type :=
    dict_get_or intent (str "intent_type") (VStr (str "general_question")) in
  if py_eq_str intent_type (str "off_topic") then
    ret (MkResponse (VStr boundary_message) [] ACTION_CHAT (Some intent) None)
  else
    try_except
      (do chat_response <- create (chat_request_of context_messages user_message);
       ret (MkResponse chat_response [] ACTION_CHAT (Some intent) None))
      (fun _ =>
         ret (MkResponse (VStr fallback_greeting) [] ACTION_CHAT (Some intent) None)).

Definition _execute_action (action : pystr) (intent : pydict)
           (user_message : pystr) (sid : pystr) : M Response :=
  if bool_decide (action = ACTION_SEARCH) then _execute_search intent
  else if bool_decide (action = ACTION_CLARIFY) then ret (_execute_clarify intent)
  else _execute_chat intent user_message sid.

Definition error_response (e : exn) : Response :=
  MkResponse (VStr apology_message) [] (str "error") None (Some e).

Definition process_message (user_message : pystr) (sid : pystr) : M Response :=
  try_except
    (run get_or_create_session sid;
     run add_message sid (str "user") (VStr user_message);
     do intent <- _extract_intent user_message sid;
     do action <- lift (_decide_action intent);
     do response_data <- _execute_action action intent user_message sid;
     run add_message sid (str "assistant") (response response_data);
     ret response_data)
    (fun e => ret (error_response e)).

End Pipeline.

End BotService.

(** ** The request handler, [index.py] *)

Module Handler.

(** [len(v)]. *)
Definition py_len (v : value) : outcome Z :=
  match v with
  | VStr s => Ret (Z.of_nat (length s))
  | VList l => Ret (Z.of_nat (length l))
  | VDict d => Ret (Z.of_nat (size d))
  | _ => Raise TypeError
  end.

(** [data.get('text') or data.get('message', '')]. *)
Definition request_text (data : pydict) : value :=
  if py_truthy (dict_get data (str "text")) then dict_get data (str "text")
  else dict_get_or data (str "message") (VStr []).

(** The part of [do_POST] between the parsed body and the call of the
    service: the keys of the body are listed, the text and the session
    identifier are read, the length of the text is logged, and a text
    that is empty or blank is refused.  Every exception raised here is
    answered with status 400 by the handler. *)
Definition read_request (data : value) : outcome (pystr * value) :=
  match data with
  | VDict d =>
      let user_text := request_text d in
      let session_id := dict_get_or d (str "session_id") (VStr (str "default")) in
      obind (py_len user_text) (fun _ =>
      obind (PineconeSearchService.blank_query user_text) (fun blank =>
      if blank then Raise ValueError
      else match user_text with
           | VStr s => Ret (s, session_id)
           | _ => Raise AttributeError
           end))
  | _ => Raise AttributeError
  end.

End Handler.

(** ** Collaborators used to run the service on concrete inputs *)

(** A world whose collaborators give fixed answers: [chat] for every
    completion, [parsed] for every [json.loads], [conn] for the Pinecone
    client and [idx] for every index query. *)
Definition scripted_world (chat parsed : outcome value) (conn : outcome unit)
           (idx : outcome search_response) : world :=
  World (fun n => N.of_nat n) (fun _ _ => chat) (fun _ => parsed)
        (fun _ => conn) (fun _ _ => idx) (fun _ => str "?") (fun _ => None).

Definition unreachable : exn := CollaboratorError (str "connection refused").

(** Every collaborator fails. *)
Definition offline_world : world :=
  scripted_world (Raise unreachable) (Raise ValueError) (Raise unreachable)
                 (Raise unreachable).

Definition no_prompts : BotService.system_prompts :=
  BotService.SystemPrompts [] [] [].

(** A service that has served nothing yet. *)
Definition fresh_service : service := Service ∅ false [] 0.

(** ** Reference definitions for the statements *)

(** What an entry of the recent view keeps of a stored message. *)
Definition view (msg : ConversationSession.message) : pystr * value :=
  (ConversationSession.role msg, ConversationSession.content msg).

(** The routing order as the design states it: off-topic first, then
    clarification or low confidence, then product search, then chat. *)
Definition route_spec (intent_type : value)
           (needs_clarification low_confidence : bool) : pystr :=
  if py_eq_str intent_type (str "off_topic") then BotService.ACTION_CHAT
  else if needs_clarification || low_confidence then BotService.ACTION_CLARIFY
  else if py_eq_str intent_type (str "product_search") then BotService.ACTION_SEARCH
  else BotService.ACTION_CHAT.

(** The equality constraint a field value gives, if any. *)
Definition eq_constraint (v : value) : option pydict :=
  if py_truthy v then Some {[str "$eq" := v]} else None.

(** [{intent_type: product_search, confidence: 0.4}] and
    [{intent_type: off_topic, confidence: 0.95}]. *)
Definition unsure_search_intent : pydict :=
  list_to_map [ (str "intent_type", VStr (str "product_search"));
                (str "confidence", VFloat (S754_finite false 7205759403792794 (-54))) ].

Definition confident_off_topic_intent : pydict :=
  list_to_map [ (str "intent_type", VStr (str "off_topic"));
                (str "confidence", VFloat (S754_finite false 8556839292003942 (-53))) ].

(** [{attributes: {price_max: 3000}}]. *)
Definition price_max_only : pydict :=
  {[ str "attributes" := VDict {[ str "price_max" := VInt 3000 ]} ]}.

(** The trace once the lazy initialisation of the adapter has run. *)
Definition trace_after_init (st : service) : list event :=
  trace st ++ (if _initialized st then [] else [EvPineconeInit]).

(** The request [search] sends to the index. *)
Definition query_of (query_text : value) (top_k : Z) : index_query :=
  IndexQuery (str "__default__") query_text top_k [str "*"].

(** The index query raises, or its answer cannot be converted. *)
Definition retrieval_fails (w : world) (tr : list event) (q : index_query) : Prop :=
  match index_search w tr q with
  | Raise _ => True
  | Ret results =>
      match PineconeSearchService._convert_results_to_matches results with
      | Raise _ => True
      | Ret _ => False
      end
  end.




(** A hit that came back with an identifier and a score but no fields. *)
Definition bare_match : Match :=
  MkMatch (VStr (str "sku-1")) (VFloat (S754_finite false 7895199347860277 (-53)))
          (VDict ∅).

Definition bare_product : pydict :=
  match BotService.format_product offline_world bare_match with
  | Ret p => p
  | Raise _ => ∅
  end.

(** The text [x] occurs in [l]. *)
Definition contains_text (x l : pystr) : Prop :=
  exists pre post, l = pre ++ x ++ post.

(** The history of a session as the recent view shows it: roles and
    contents in order, or nothing when the session does not exist. *)
Definition history (sid : pystr) (st : service) : option (list (pystr * value)) :=
  (fun s => view <$> ConversationSession.messages s) <$> sessions st !! sid.

(** A computation leaves an observation of the service as it found it,
    whether it returns or raises. *)
Definition keeps {A B : Type} (obs : service -> B) (m : M A) : Prop :=
  forall st, obs (m st).2 = obs st.

(** The classification call raises, or what it returns does not parse to
    a dictionary. *)
Definition classification_fails (w : world) (tr : list event) (req : chat_request)
  : Prop :=
  match chat_completions_create w tr req with
  | Raise _ => True
  | Ret c => match json_loads w c with
             | Ret (VDict _) => False
             | _ => True
             end
  end.

(** The responses an action produces carry one of the three action tags. *)
Definition has_action_tag (r : BotService.Response) : Prop :=
  BotService.action r = BotService.ACTION_SEARCH
  \/ BotService.action r = BotService.ACTION_CLARIFY
  \/ BotService.action r = BotService.ACTION_CHAT.

(** The answer of the chat branch to an off-topic intent. *)
Definition boundary_response (intent : pydict) : BotService.Response :=
  BotService.MkResponse (VStr BotService.boundary_message) []
                        BotService.ACTION_CHAT (Some intent) None.

(** The answer to a message whose classification failed. *)
Definition soft_response (user_message : pystr) : BotService.Response :=
  BotService.MkResponse (VStr BotService.generic_clarification) []
                        BotService.ACTION_CLARIFY
                        (Some (BotService.default_intent user_message)) None.

(** A classifier that calls every message off-topic with confidence 0.95. *)
Definition off_topic_world : world :=
  scripted_world (Ret (VStr (str "{off_topic}")))
                 (Ret (VDict confident_off_topic_intent))
                 (Raise unreachable) (Raise unreachable).

(** A classifier whose answer has a confidence that is not a number. *)
Definition garbled_world : world :=
  scripted_world (Ret (VStr (str "{confidence: high}")))
                 (Ret (VDict {[ str "confidence" := VStr (str "high") ]}))
                 (Raise unreachable) (Raise unreachable).

(** A classifier that finds a saree search with confidence 0.9, and an
    index that holds one saree at 2850. *)
Definition saree_intent : pydict :=
  list_to_map
    [ (str "intent_type", VStr (str "product_search"));
      (str "category", VStr (str "Saree"));
      (str "attributes",
       VDict (list_to_map [ (str "color", VStr (str "indigo"));
                            (str "fabric", VStr (str "cotton"));
                            (str "price_max", VInt 3000) ]));
      (str "search_query", VStr (str "indigo ajrakh cotton saree"));
      (str "confidence", VFloat (S754_finite false 8106479329266893 (-53))) ].

Definition saree_hit : value :=
  VDict (list_to_map
    [ (str "_id", VStr (str "sku-7"));
      (str "_score", VFloat (S754_finite false 7895199347860277 (-53)));
      (str "fields",
       VDict (list_to_map [ (str "product_name", VStr (str "Indigo Ajrakh Saree"));
                            (str "price", VInt 2850);
                            (str "in_stock", VBool false) ])) ]).

Definition saree_world : world :=
  scripted_world (Ret (VStr (str "Yes, we have 1 option.")))
                 (Ret (VDict saree_intent)) (Ret tt)
                 (Ret (SearchResponse true
                         (Some (VDict {[ str "hits" := VList [saree_hit] ]})))).

(** The session stored under a key, if any. *)
Definition session_at (sid : pystr) (st : service)
  : option ConversationSession.t := sessions st !! sid.

(** A computation adds at most [n] calls to the trace, and removes none. *)
Definition within (n : nat) {A : Type} (m : M A) : Prop :=
  forall st, exists evs, trace (m st).2 = trace st ++ evs /\ (length evs <= n)%nat.

(** What [process_message] does once the intent has been extracted. *)
Definition respond (w : world) (prompts : BotService.system_prompts)
           (user_message sid : pystr) (intent : pydict) : M BotService.Response :=
  do action <- lift (BotService._decide_action intent);
  do response_data <-
    BotService._execute_action w prompts action intent user_message sid;
  run BotService.add_message w sid (str "assistant")
        (BotService.response response_data);
  ret response_data.

(** A service that holds one session, under the key ["a"]. *)
Definition service_with_a : service :=
  (BotService.process_message offline_world no_prompts (str "hello") (str "a")
     fresh_service).2.

(** The range constraint a [price_range] value gives, if any: a lower
    bound from a truthy [min], an upper bound from a truthy [max]. *)
Definition range_constraint (price_range : value) : option pydict :=
  match price_range with
  | VDict pr =>
      let lo := dict_get pr (str "min") in
      let hi := dict_get pr (str "max") in
      match py_truthy lo, py_truthy hi with
      | true, true => Some {[ str "$gte" := lo; str "$lte" := hi ]}
      | true, false => Some {[ str "$gte" := lo ]}
      | false, true => Some {[ str "$lte" := hi ]}
      | false, false => None
      end
  | _ => None
  end.

(** [{attributes: {price_range: {min: 0, max: 4000}}}]. *)
Definition zero_to_4000 : pydict :=
  {[ str "attributes" :=
       VDict {[ str "price_range" :=
                  VDict {[ str "min" := VInt 0; str "max" := VInt 4000 ]} ]} ]}.

(** The match a hit that is a mapping gives. *)
Definition match_of_hit (hit : pydict) : Match :=
  MkMatch (dict_get hit (str "_id"))
          (dict_get_or hit (str "_score") (VInt 0))
          (dict_get_or hit (str "fields") (VDict ∅)).

(** A value that is not a mapping. *)
Definition not_a_mapping (v : value) : Prop :=
  match v with VDict _ => False | _ => True end.

(** An index whose answer holds a good hit followed by a hit that is a
    bare string. *)
Definition mixed_hits_world : world :=
  scripted_world (Ret (VStr (str "ok"))) (Ret (VDict saree_intent)) (Ret tt)
                 (Ret (SearchResponse true
                         (Some (VDict {[ str "hits" :=
                                           VList [saree_hit; VStr (str "sku-8")] ]})))).

(** A hit whose score came back as text. *)
Definition unscored_match : Match :=
  MkMatch (VStr (str "sku-9")) (VStr (str "high")) (VDict ∅).

(** A classifier that asks which fabric is meant. *)
Definition which_fabric_intent : pydict :=
  list_to_map
    [ (str "intent_type", VStr (str "product_search"));
      (str "confidence", VFloat (S754_finite false 8106479329266893 (-53)));
      (str "needs_clarification", VBool true);
      (str "clarification_question", VStr (str "Which fabric do you prefer?")) ].

Definition which_fabric_world : world :=
  scripted_world (Ret (VStr (str "{needs_clarification}")))
                 (Ret (VDict which_fabric_intent))
                 (Raise unreachable) (Raise unreachable).

(** The answer of the clarify branch. *)
Definition clarify_response (intent : pydict) : BotService.Response :=
  BotService.MkResponse
    (if py_truthy (dict_get intent (str "clarification_question"))
     then dict_get intent (str "clarification_question")
     else VStr BotService.generic_clarification)
    [] BotService.ACTION_CLARIFY (Some intent) None.

(** The response of the search branch when nothing was retrieved. *)
Definition empty_search_response (intent : pydict) (text : value)
  : BotService.Response :=
  BotService.MkResponse text [] BotService.ACTION_SEARCH (Some intent) None.

(** The intent data [_execute_search] hands to the adapter. *)
Definition intent_data_of (intent : pydict) : pydict :=
  list_to_map
    [ (str "category", dict_get intent (str "category"));
      (str "subcategory", dict_get intent (str "subcategory"));
      (str "attributes", dict_get_or intent (str "attributes") (VDict ∅)) ].

(** An index that is down and a model that only classifies: the
    classification succeeds, the index query and the generation fail. *)
Definition index_down_world : world :=
  World (fun n => N.of_nat n)
        (fun _ req => if json_object_format req then Ret (VStr (str "{search}"))
                      else Raise unreachable)
        (fun _ => Ret (VDict saree_intent))
        (fun _ => Ret tt) (fun _ _ => Raise unreachable)
        (fun _ => str "?") (fun _ => None).

(** The number of messages [get_session_info] reports, 0 for a session
    that does not exist. *)
Definition reported_count (sid : pystr) (st : service) : nat :=
  match (BotService.get_session_info sid st).1 with
  | Ret (Some info) => BotService.message_count info
  | _ => 0%nat
  end.

(** What a session remembers under a key after a message whose intent
    holds the value [v] there: a truthy value replaces what was
    remembered, anything else leaves it. *)
Definition remembered (v : value) (before : option value) : option value :=
  if py_truthy v then Some v else before.

(** A classifier that finds a product search whose attributes are null. *)
Definition null_attributes_intent : pydict :=
  list_to_map
    [ (str "intent_type", VStr (str "product_search"));
      (str "attributes", VNone);
      (str "search_query", VStr (str "saree"));
      (str "confidence", VFloat (S754_finite false 8106479329266893 (-53))) ].

Definition null_attributes_world : world :=
  scripted_world (Ret (VStr (str "{attributes: null}")))
                 (Ret (VDict null_attributes_intent)) (Ret tt)
                 (Ret (SearchResponse true
                         (Some (VDict {[ str "hits" := VList [saree_hit] ]})))).

(** The last [n] entries of a history. *)
Definition recent (n : nat) (h : list (pystr * value)) : list (pystr * value) :=
  drop (length h - n) h.

(** The classification request of a turn: the system prompt, the recent
    view of the history with the new message recorded, and the message. *)
Definition turn_request (prompts : BotService.system_prompts)
           (user_message sid : pystr) (st : service) : chat_request :=
  BotService.intent_request prompts
    (recent 5 (default [] (history sid st) ++ [(str "user", VStr user_message)]))
    user_message.

(** The intent a classification request yields: the dictionary the answer
    parses to, and the default intent when the call raises or the answer
    does not parse to a dictionary. *)
Definition classified (w : world) (tr : list event) (req : chat_request)
           (user_message : pystr) : pydict :=
  match chat_completions_create w tr req with
  | Ret c => match json_loads w c with
             | Ret (VDict intent) => intent
             | _ => BotService.default_intent user_message
             end
  | Raise _ => BotService.default_intent user_message
  end.

(** The intent of a turn. *)
Definition turn_intent (w : world) (prompts : BotService.system_prompts)
           (user_message sid : pystr) (st : service) : pydict :=
  classified w (trace st) (turn_request prompts user_message sid st) user_message.

(** Whether [x] occurs in [l], by comparison at every position. *)
Fixpoint starts_with (x l : pystr) : bool :=
  match x, l with
  | [], _ => true
  | a :: x', b :: l' => (a =? b)%N && starts_with x' l'
  | _ :: _, [] => false
  end.

Fixpoint occurs_in (x l : pystr) : bool :=
  starts_with x l
  || match l with
     | [] => false
     | _ :: l' => occurs_in x l'
     end.

(** A hit that is marked out of stock. *)
Definition out_of_stock_match : Match :=
  MkMatch (VStr (str "sku-0")) (VInt 1) (VDict {[ str "in_stock" := VBool false ]}).

(** Five hits out of stock, then a hit without stock field. *)
Definition six_matches : list Match :=
  replicate 5 out_of_stock_match ++ [bare_match].

Definition six_products : list pydict :=
  match BotService._format_products offline_world six_matches with
  | Ret ps => ps
  | Raise _ => []
  end.

(** The trace once [search] has run on an initialised adapter with the
    query text [s]: the index query is made unless the text is blank. *)
Definition searched_trace (st : service) (s : pystr) : list event :=
  trace st ++ (if forallb py_isspace s then []
               else [EvIndexSearch (query_of (VStr s) 10)]).

(** A value that is not a number. *)
Definition not_a_number (v : value) : Prop :=
  match v with
  | VFloat _ | VInt _ | VBool _ => False
  | _ => True
  end.

(** The price of the metadata is an integer too large for a float. *)
Definition oversized_price (md : pydict) : Prop :=
  exists z, dict_get_or md (str "price") (VStr (str "N/A")) = VInt z
            /\ Num.is_infinity (Num.float_of_Z z) = true.

(** The matches that have no product record. *)
Definition no_record (m : Match) : Prop :=
  match metadata m with
  | VDict md => oversized_price md \/ not_a_number (score m)
  | _ => True
  end.

(** * Properties *)

(** ** Sessions: the recent view *)

Section SessionView.
Import ConversationSession.
Implicit Types (s : ConversationSession.t) (l : list message).

Lemma slice_from_neg {A} (l : list A) (n : nat) :
  (1 <= n)%nat ->
  slice_from l (- Z.of_nat n) = drop (length l - n) l.
Proof.
  intros Hn. unfold slice_from.
  destruct (Z.ltb_spec (- Z.of_nat n) 0) as [_|]; [|lia].
  f_equal. lia.
Qed.

(** For a positive bound the view is the last [min n N] entries, in the
    order of the history. *)
Lemma get_context_window_positive s (n : nat) :
  (1 <= n)%nat ->
  get_context_window s (Z.of_nat n)
  = view <$> drop (length (messages s) - Nat.min n (length (messages s)))
                  (messages s).
Proof.
  intros Hn. unfold get_context_window.
  destruct (Z.gtb_spec (Z.of_nat (length (messages s))) (Z.of_nat n)) as [Hgt|Hle].
  - rewrite slice_from_neg by done.
    replace (Nat.min n (length (messages s))) with n by lia. done.
  - replace (length (messages s) - Nat.min n (length (messages s)))%nat
      with 0%nat by lia.
    done.
Qed.

Lemma get_context_window_length s (n : nat) :
  (1 <= n)%nat ->
  length (get_context_window s (Z.of_nat n)) = Nat.min n (length (messages s)).
Proof.
  intros Hn. rewrite get_context_window_positive by done.
  rewrite length_fmap, length_drop. lia.
Qed.

(** Asking for more than the history holds returns all of it. *)
Lemma get_context_window_all s (n : nat) :
  (1 <= n)%nat -> (length (messages s) <= n)%nat ->
  get_context_window s (Z.of_nat n) = view <$> messages s.
Proof.
  intros Hn Hle. rewrite get_context_window_positive by done.
  replace (length (messages s) - Nat.min n (length (messages s)))%nat
    with 0%nat by lia.
  done.
Qed.

(** C8. The recent view is claimed to hold the last [min n N] entries for
    every [n]; for [n = 0] the slice [messages[-0:]] is the whole list, so
    a bound of zero returns all the [N] entries of the history. *)
Theorem get_context_window_zero_returns_all s :
  get_context_window s 0 = view <$> messages s
  /\ length (get_context_window s 0) = length (messages s).
Proof.
  assert (get_context_window s 0 = view <$> messages s) as E.
  { unfold get_context_window, slice_from. simpl.
    destruct (Z.gtb_spec (Z.of_nat (length (messages s))) 0) as [Hgt|Hle]; [|done].
    replace (Z.to_nat (Z.min (- 0) (Z.of_nat (length (messages s)))))
      with 0%nat by lia.
    done. }
  split; [done|]. by rewrite E, length_fmap.
Qed.

(** Asking for two entries of a longer history returns its last two. *)
Lemma get_context_window_last_two s l (a b : message) :
  messages s = l ++ [a; b] ->
  get_context_window s 2 = [view a; view b].
Proof.
  intros Hm. change 2 with (Z.of_nat 2).
  rewrite (get_context_window_positive s 2) by lia.
  rewrite Hm, length_app. change (length [a; b]) with 2%nat.
  replace (length l + 2 - Nat.min 2 (length l + 2))%nat with (length l) by lia.
  by rewrite drop_app_length.
Qed.

(** A history of three turns, asked for at most zero entries. *)
Example get_context_window_zero_three :
  get_context_window
    (Session (str "s") 0 0
       [ Message (str "user") (VStr (str "a")) 1;
         Message (str "assistant") (VStr (str "b")) 2;
         Message (str "user") (VStr (str "c")) 3 ] ∅) 0
  = [ (str "user", VStr (str "a"));
      (str "assistant", VStr (str "b"));
      (str "user", VStr (str "c")) ].
Proof. reflexivity. Qed.

(** A negative bound drops entries from the front instead. *)
Example get_context_window_negative :
  get_context_window
    (Session (str "s") 0 0
       [ Message (str "user") (VStr (str "a")) 1;
         Message (str "assistant") (VStr (str "b")) 2;
         Message (str "user") (VStr (str "c")) 3 ] ∅) (-1)
  = [ (str "assistant", VStr (str "b")); (str "user", VStr (str "c")) ].
Proof. reflexivity. Qed.

End SessionView.

(** ** The action router *)

Section Router.
Import BotService.

(** C3. The router applies the order off-topic, clarification or low
    confidence, product search, chat, first match winning, to every intent
    whose confidence can be compared with 0.6; and its verdict is the
    same for two intents that agree on [intent_type], [confidence] and
    [needs_clarification]. *)
Theorem decide_action_first_match_wins (intent : pydict) (low : bool) :
  py_lt_float (dict_get_or intent (str "confidence") (VFloat float_0_5)) float_0_6
    = Ret low ->
  _decide_action intent
    = Ret (route_spec
             (dict_get_or intent (str "intent_type") (VStr (str "general_question")))
             (py_truthy (dict_get_or intent (str "needs_clarification") (VBool false)))
             low)
  /\ forall other : pydict,
       other !! str "intent_type" = intent !! str "intent_type" ->
       other !! str "confidence" = intent !! str "confidence" ->
       other !! str "needs_clarification" = intent !! str "needs_clarification" ->
       _decide_action other = _decide_action intent.
Proof.
  intros Hlow. split.
  - unfold _decide_action, route_spec. rewrite Hlow. simpl.
    destruct (py_eq_str _ (str "off_topic")); [done|].
    destruct (py_truthy _); [done|].
    destruct low; simpl; [done|].
    by destruct (py_eq_str _ (str "product_search")).
  - intros other Ht Hc Hn. unfold _decide_action, dict_get_or.
    by rewrite Ht, Hc, Hn.
Qed.

Lemma decide_action_first_match_wins_witness :
  _decide_action unsure_search_intent = Ret ACTION_CLARIFY
  /\ _decide_action confident_off_topic_intent = Ret ACTION_CHAT.
Proof.
  split.
  - exact (proj1 (decide_action_first_match_wins unsure_search_intent true eq_refl)).
  - exact (proj1 (decide_action_first_match_wins confident_off_topic_intent false
                    eq_refl)).
Defined.

(** Off-topic wins before the confidence is looked at, so a confidence
    that cannot be ordered does no harm there. *)
Lemma decide_action_off_topic (intent : pydict) :
  py_eq_str (dict_get_or intent (str "intent_type") (VStr (str "general_question")))
            (str "off_topic") = true ->
  _decide_action intent = Ret ACTION_CHAT.
Proof. intros H. unfold _decide_action. by rewrite H. Qed.

(** A confidence that is not a number makes the comparison raise. *)
Example decide_action_text_confidence :
  _decide_action {[ str "confidence" := VStr (str "high") ]} = Raise TypeError.
Proof. reflexivity. Qed.

End Router.

(** ** The filter builder *)

Section FilterBuilder.
Import PineconeSearchService.

(** An intent without category, subcategory or attributes gives no
    constraint. *)
Lemma build_filter_empty : _build_filter ∅ = Ret ∅.
Proof. reflexivity. Qed.

Lemma set_if_lookup (c : value) (k : pystr) (fd : filter) :
  set_if c k fd !! k = match eq_constraint c with
                       | Some e => Some e
                       | None => fd !! k
                       end.
Proof.
  unfold set_if, eq_constraint.
  destruct (py_truthy c); [|done]. by rewrite lookup_insert_eq.
Qed.

Lemma set_if_lookup_ne (c : value) (k j : pystr) (fd : filter) :
  k ≠ j -> set_if c k fd !! j = fd !! j.
Proof.
  intros Hne. unfold set_if.
  destruct (py_truthy c); [|done]. by rewrite lookup_insert_ne.
Qed.

(** Without a [price_range] entry the price branch adds nothing. *)
Lemma price_filter_absent (fd : filter) : price_filter VNone fd = fd.
Proof. reflexivity. Qed.

Ltac other_key :=
  rewrite set_if_lookup_ne by (vm_compute; discriminate).

(** The six equality constraints: each field gives the constraint
    [{"$eq": value}] exactly when its value is truthy, and, when the
    attributes hold no [price_range], the filter has no other key. *)
Lemma build_filter_equalities (intent_data attrs : pydict) :
  dict_get_or intent_data (str "attributes") (VDict ∅) = VDict attrs ->
  attrs !! str "price_range" = None ->
  exists fd : filter,
    _build_filter intent_data = Ret fd
    /\ fd !! str "category" = eq_constraint (dict_get intent_data (str "category"))
    /\ fd !! str "subcategory"
       = eq_constraint (dict_get intent_data (str "subcategory"))
    /\ fd !! str "color" = eq_constraint (dict_get attrs (str "color"))
    /\ fd !! str "fabric" = eq_constraint (dict_get attrs (str "fabric"))
    /\ fd !! str "technique" = eq_constraint (dict_get attrs (str "technique"))
    /\ fd !! str "pattern" = eq_constraint (dict_get attrs (str "pattern"))
    /\ forall k : pystr,
         k ∉ [str "category"; str "subcategory"; str "color"; str "fabric";
              str "technique"; str "pattern"] ->
         fd !! k = None.
Proof.
  intros Hattrs Hprice.
  assert (dict_get attrs (str "price_range") = VNone) as Hnone
    by (unfold dict_get; by rewrite Hprice).
  eexists. split.
  { unfold _build_filter. rewrite Hattrs. cbv beta iota zeta.
    rewrite Hnone, price_filter_absent. reflexivity. }
  repeat split.
  - repeat other_key. rewrite set_if_lookup. by destruct (eq_constraint _).
  - repeat other_key. rewrite set_if_lookup. other_key.
    by destruct (eq_constraint _).
  - repeat other_key. rewrite set_if_lookup. repeat other_key.
    by destruct (eq_constraint _).
  - repeat other_key. rewrite set_if_lookup. repeat other_key.
    by destruct (eq_constraint _).
  - repeat other_key. rewrite set_if_lookup. repeat other_key.
    by destruct (eq_constraint _).
  - rewrite set_if_lookup. repeat other_key.
    by destruct (eq_constraint _).
  - intros k Hk.
    repeat (rewrite set_if_lookup_ne by (intros <-; apply Hk; set_solver)).
    done.
Qed.

(** The price branch reads [price_range], and only a dictionary with
    [min] or [max]; [price_min] and [price_max] are never looked at. *)
Lemma build_filter_price_range :
  _build_filter
    {[ str "attributes" :=
         VDict {[ str "price_range" :=
                    VDict {[ str "min" := VInt 3000; str "max" := VInt 4000 ]} ]} ]}
  = Ret {[ str "price" :=
             {[ str "$gte" := VInt 3000; str "$lte" := VInt 4000 ]} ]}.
Proof. vm_compute. reflexivity. Qed.

(** C2. The filter built from attributes holding only [price_max: 3000]
    is claimed to be the single range constraint [price <= 3000]; the
    builder returns the empty filter, since it never reads [price_max]. *)
Theorem build_filter_price_max_ignored :
  _build_filter price_max_only = Ret ∅.
Proof. vm_compute. reflexivity. Qed.

End FilterBuilder.

(** ** The retrieval adapter *)

Section Retrieval.
Import PineconeSearchService.
Context (w : world).

Lemma lstrip_nil (s : pystr) : lstrip s = [] <-> forallb py_isspace s = true.
Proof.
  induction s as [|c s IH]; simpl; [done|].
  destruct (py_isspace c); simpl; [done|]. split; discriminate.
Qed.

Lemma lstrip_suffix (s : pystr) : exists pre, s = pre ++ lstrip s.
Proof.
  induction s as [|c s [pre IH]]; simpl; [by exists []|].
  destruct (py_isspace c); [|by exists []].
  exists (c :: pre). simpl. by f_equal.
Qed.

Lemma lstrip_head (s : pystr) (c : N) (t : pystr) :
  lstrip s = c :: t -> py_isspace c = false.
Proof.
  induction s as [|d s IH]; simpl; [done|].
  destruct (py_isspace d) eqn:Hd; [done|]. by intros [= <- _].
Qed.

(** Stripping leaves nothing exactly when every character is white
    space (the empty string included). *)
Lemma py_strip_nil (s : pystr) : py_strip s = [] <-> forallb py_isspace s = true.
Proof.
  unfold py_strip. rewrite <- lstrip_nil. split.
  - intros H. apply (f_equal reverse) in H. rewrite reverse_involutive in H.
    simpl in H. apply lstrip_nil in H.
    destruct (lstrip s) as [|c t] eqn:E; [done|].
    apply lstrip_head in E. rewrite reverse_cons, forallb_app in H.
    simpl in H. rewrite E in H. by rewrite andb_false_r in H.
  - intros ->. done.
Qed.

Lemma blank_query_str (s : pystr) :
  blank_query (VStr s) = Ret (forallb py_isspace s).
Proof.
  unfold blank_query. destruct s as [|c s]; [done|].
  cbn [py_truthy negb]. f_equal.
  destruct (forallb py_isspace (c :: s)) eqn:E.
  - apply py_strip_nil in E. by rewrite E.
  - destruct (py_strip (c :: s)) eqn:E'; [|done].
    apply py_strip_nil in E'. congruence.
Qed.

Lemma initialize_ready (st : service) :
  _initialized st = true -> _initialize w st = (Ret tt, st).
Proof. intros H. unfold _initialize, bind, get_initialized. by rewrite H. Qed.

Lemma initialize_connects (st : service) :
  _initialized st = false -> pinecone_connect w (trace st) = Ret tt ->
  _initialize w st
  = (Ret tt, Service (sessions st) true (trace_after_init st) (ticks st)).
Proof.
  intros H Hc. unfold _initialize, bind, get_initialized, trace_after_init.
  rewrite H. simpl. unfold lift. by rewrite Hc.
Qed.

Lemma initialize_fails (st : service) (e : exn) :
  _initialized st = false -> pinecone_connect w (trace st) = Raise e ->
  _initialize w st
  = (Raise e, Service (sessions st) false (trace_after_init st) (ticks st)).
Proof.
  intros H Hc. unfold _initialize, bind, get_initialized, trace_after_init.
  rewrite H. simpl. unfold lift. by rewrite Hc, H.
Qed.

Lemma initialize_trace (st : service) :
  trace (_initialize w st).2 = trace_after_init st.
Proof.
  unfold trace_after_init. destruct (_initialized st) eqn:H.
  - rewrite initialize_ready by done. simpl. by rewrite app_nil_r.
  - destruct (pinecone_connect w (trace st)) as [[]|e] eqn:Hc.
    + rewrite initialize_connects by done. simpl. unfold trace_after_init.
      by rewrite H.
    + rewrite (initialize_fails _ e) by done. simpl. unfold trace_after_init.
      by rewrite H.
Qed.

(** [search] once the initialisation has returned. *)
Lemma search_after_init (q : value) (idata : option pydict) (k : Z)
      (st st1 : service) :
  _initialize w st = (Ret tt, st1) ->
  search w q idata k st
  = match blank_query q with
    | Ret true => (Ret [], st1)
    | Ret false =>
        match filter_for idata with
        | Ret _ =>
            let st2 := Service (sessions st1) (_initialized st1)
                               (trace st1 ++ [EvIndexSearch (query_of q k)])
                               (ticks st1) in
            match index_search w (trace st1) (query_of q k) with
            | Ret results =>
                match _convert_results_to_matches results with
                | Ret ms => (Ret ms, st2)
                | Raise _ => (Ret [], st2)
                end
            | Raise _ => (Ret [], st2)
            end
        | Raise e => (Raise e, st1)
        end
    | Raise e => (Raise e, st1)
    end.
Proof.
  intros Hi. unfold search, bind. rewrite Hi. unfold lift.
  destruct (blank_query q) as [[]|e]; [done| |done].
  destruct (filter_for idata) as [fd|e]; [|done].
  unfold try_except, bind, get_trace, emit, lift, query_of. simpl.
  destruct (index_search w _ _) as [results|e]; [|done].
  by destruct (_convert_results_to_matches results).
Qed.

Lemma search_init_fails (q : value) (idata : option pydict) (k : Z)
      (st st1 : service) (e : exn) :
  _initialize w st = (Raise e, st1) ->
  search w q idata k st = (Raise e, st1).
Proof. intros Hi. unfold search, bind. by rewrite Hi. Qed.

(** C4, as the adapter behaves.  For a query that is empty or only white
    space the adapter never queries the index: the only call it can make
    is the lazy construction of the client, on an adapter that has not
    been initialised yet.  On an initialised adapter it returns the empty
    sequence and leaves the service untouched; on a fresh one it returns
    the empty sequence once the client has been constructed. *)
Theorem search_blank_query (s : pystr) (idata : option pydict) (k : Z)
        (st : service) :
  forallb py_isspace s = true ->
  trace (search w (VStr s) idata k st).2 = trace_after_init st
  /\ (_initialized st = true ->
      search w (VStr s) idata k st = (Ret [], st))
  /\ (_initialized st = false -> pinecone_connect w (trace st) = Ret tt ->
      (search w (VStr s) idata k st).1 = Ret []).
Proof.
  intros Hs. pose proof (blank_query_str s) as Hb. rewrite Hs in Hb.
  split; [|split].
  - rewrite <- initialize_trace.
    destruct (_initialize w st) as [[[]|e] st1] eqn:Hi.
    + rewrite (search_after_init _ _ _ _ st1) by done. by rewrite Hb.
    + by rewrite (search_init_fails _ _ _ _ st1 e).
  - intros Hr. rewrite (search_after_init _ _ _ _ st) by by apply initialize_ready.
    by rewrite Hb.
  - intros Hr Hc. erewrite search_after_init by by apply initialize_connects.
    by rewrite Hb.
Qed.

(** C7, as the adapter behaves.  For a query that is not blank, on an
    adapter that is initialised or whose client can be constructed, and
    with a filter that can be built, a failure of the index query or of
    the conversion of its answer gives the empty sequence. *)
Theorem search_retrieval_failure (s : pystr) (idata : option pydict) (k : Z)
        (st : service) (fd : filter) :
  forallb py_isspace s = false ->
  _initialized st = true \/ pinecone_connect w (trace st) = Ret tt ->
  filter_for idata = Ret fd ->
  retrieval_fails w (trace_after_init st) (query_of (VStr s) k) ->
  (search w (VStr s) idata k st).1 = Ret [].
Proof.
  intros Hs Hinit Hfd Hfail. pose proof (blank_query_str s) as Hb.
  rewrite Hs in Hb. unfold retrieval_fails in Hfail.
  assert (exists st1, _initialize w st = (Ret tt, st1)
                      /\ trace st1 = trace_after_init st) as (st1 & Hi & Htr).
  { destruct (_initialized st) eqn:Hr.
    - exists st. split; [by apply initialize_ready|].
      unfold trace_after_init. by rewrite Hr, app_nil_r.
    - destruct Hinit as [|Hc]; [done|]. eexists. split.
      + by apply initialize_connects.
      + done. }
  rewrite (search_after_init _ _ _ _ st1) by done.
  rewrite Hb, Hfd, Htr. simpl.
  destruct (index_search w _ _) as [results|e]; [|done].
  by destruct (_convert_results_to_matches results).
Qed.

End Retrieval.

(** C4 as stated fails on a service that has served nothing yet: the
    adapter constructs the Pinecone client before it looks at the query, so
    a blank query does reach the collaborator, and when the client cannot
    be constructed the call raises instead of returning the empty
    sequence. *)
Lemma search_blank_query_contacts_pinecone :
  PineconeSearchService.search offline_world (VStr (str "   ")) None 10 fresh_service
  = (Raise unreachable, Service ∅ false [EvPineconeInit] 0).
Proof. reflexivity. Qed.

Lemma search_blank_query_witness :
  trace (PineconeSearchService.search offline_world (VStr (str "   ")) None 10
           (Service ∅ true [] 0)).2 = []
  /\ PineconeSearchService.search offline_world (VStr (str "   ")) None 10
       (Service ∅ true [] 0) = (Ret [], Service ∅ true [] 0).
Proof.
  pose proof (search_blank_query offline_world (str "   ") None 10
                (Service ∅ true [] 0) eq_refl) as (Ht & Hr & _).
  split; [exact Ht | exact (Hr eq_refl)].
Defined.

(** C7 as stated fails in the same place: a failure of the client
    construction is raised to the caller, whatever the query. *)
Lemma search_propagates_init_failure :
  PineconeSearchService.search offline_world (VStr (str "red silk saree")) None 5
    fresh_service
  = (Raise unreachable, Service ∅ false [EvPineconeInit] 0).
Proof. reflexivity. Qed.

Lemma search_retrieval_failure_witness :
  (PineconeSearchService.search offline_world (VStr (str "red silk saree")) None 5
     (Service ∅ true [] 0)).1 = Ret [].
Proof.
  apply (search_retrieval_failure offline_world (str "red silk saree") None 5
           (Service ∅ true [] 0) ∅).
  - reflexivity.
  - left. reflexivity.
  - reflexivity.
  - exact I.
Defined.

(** ** Product records *)

Section ProductRecords.
Import BotService.
Context (w : world).

Lemma dict_get_or_absent (d : pydict) (k : pystr) (dflt : value) :
  d !! k = None -> dict_get_or d k dflt = dflt.
Proof. intros H. unfold dict_get_or. by rewrite H. Qed.

Lemma dict_get_or_present (d : pydict) (k : pystr) (dflt v : value) :
  d !! k = Some v -> dict_get_or d k dflt = v.
Proof. intros H. unfold dict_get_or. by rewrite H. Qed.


(** A price of 2850, as an integer or as a float, with the currency mark and
    the thousands separator. *)
Example price_formatted_2850 :
  price_formatted w (VInt 2850) = Ret (currency_mark ++ str "2,850")
  /\ price_formatted w (VFloat (S754_finite false 6267216278323200 (-41)))
     = Ret (currency_mark ++ str "2,850").
Proof. split; vm_compute; reflexivity. Qed.

(** 0.87654321 rounds to 0.8765, and 0.123456 to 0.1235. *)
Example round4_examples :
  Num.round4 (S754_finite false 7895199347860277 (-53))
  = S754_finite false 7894810146780479 (-53)
  /\ Num.round4 (S754_finite false 8895942329546431 (-56))
     = S754_finite false 8899112863684100 (-56).
Proof. split; vm_compute; reflexivity. Qed.

Ltac compute_lookup := vm_compute; reflexivity.


Lemma contains_text_here (a b c : pystr) : contains_text (a ++ b) (a ++ b ++ c).
Proof. exists [], c. by rewrite app_assoc. Qed.

Lemma contains_text_app_l (x a b : pystr) :
  contains_text x a -> contains_text x (a ++ b).
Proof.
  intros (pre & post & ->). exists pre, (post ++ b). by rewrite <- !app_assoc.
Qed.

Lemma contains_text_app_r (x a b : pystr) :
  contains_text x b -> contains_text x (a ++ b).
Proof.
  intros (pre & post & ->). exists (a ++ pre), post. by rewrite <- !app_assoc.
Qed.

Lemma contains_text_join (x sep : pystr) (parts : list pystr) (i : nat)
      (part : pystr) :
  parts !! i = Some part -> contains_text x part ->
  contains_text x (join sep parts).
Proof.
  revert i. induction parts as [|q parts IH]; intros i Hi Hx; [done|].
  destruct i as [|i]; simpl in Hi.
  - injection Hi as ->. destruct parts; simpl; [done|].
    by apply contains_text_app_l.
  - destruct parts as [|q' parts]; [done|].
    change (join sep (q :: q' :: parts)) with (q ++ sep ++ join sep (q' :: parts)).
    do 2 apply contains_text_app_r. by apply (IH i).
Qed.

Lemma product_summary_stock (i : nat) (p : pydict) :
  contains_text (str "- Stock: " ++ in_stock_status p) (product_summary w i p).
Proof.
  unfold product_summary.
  repeat first [apply contains_text_here | apply contains_text_app_r].
Qed.

(** C10. A match whose metadata has no [in_stock] field gives a record
    whose [in_stock] is [True]; the status computed for the prompt is
    ["In Stock"], the summary of the product says so, and so does the
    prompt sent to the language model when the product is among the first
    five. *)
Theorem format_product_default_in_stock (m : Match) (md p : pydict) :
  metadata m = VDict md ->
  md !! str "in_stock" = None ->
  format_product w m = Ret p ->
  p !! str "in_stock" = Some (VBool true)
  /\ in_stock_status p = str "In Stock"
  /\ (forall i, contains_text (str "- Stock: In Stock") (product_summary w i p))
  /\ (forall qd products i,
        take 5 products !! i = Some p ->
        contains_text (str "- Stock: In Stock")
                      (search_user_prompt w qd products)).
Proof.
  intros Hmd Habsent Hp.
  assert (p !! str "in_stock" = Some (VBool true)) as Hstock.
  { unfold format_product in Hp. rewrite Hmd in Hp.
    destruct (price_formatted w _) as [price|]; [|done].
    destruct (py_round4 _) as [rounded|]; [|done].
    simpl in Hp. injection Hp as <-.
    rewrite (dict_get_or_absent _ _ _ Habsent). compute_lookup. }
  assert (in_stock_status p = str "In Stock") as Hstatus.
  { unfold in_stock_status, dict_get_or. by rewrite Hstock. }
  assert (forall i, contains_text (str "- Stock: In Stock") (product_summary w i p))
    as Hsummary.
  { intros i. pose proof (product_summary_stock i p) as H.
    by rewrite Hstatus in H. }
  repeat split; [done..|].
  intros qd products i Hi. unfold search_user_prompt.
  destruct products as [|p0 products]; [by rewrite take_nil in Hi|].
  do 10 apply contains_text_app_r. apply contains_text_app_l.
  apply (contains_text_join _ _ _ i (product_summary w i p)); [|done].
  unfold product_summaries. by rewrite list_lookup_imap, Hi.
Qed.

End ProductRecords.



Lemma format_product_default_in_stock_witness :
  bare_product !! str "in_stock" = Some (VBool true)
  /\ BotService.in_stock_status bare_product = str "In Stock".
Proof.
  destruct (format_product_default_in_stock offline_world bare_match ∅ bare_product
              eq_refl eq_refl eq_refl) as (H1 & H2 & _).
  by split.
Defined.

(** ** Frames: what the steps of a request leave alone *)

Section Frames.
Context {B : Type} (obs : service -> B).

Lemma keeps_ret {A} (a : A) : keeps obs (ret a).
Proof. by intros st. Qed.

Lemma keeps_raise {A} (e : exn) : keeps obs (raise (A := A) e).
Proof. by intros st. Qed.

Lemma keeps_lift {A} (x : outcome A) : keeps obs (lift x).
Proof. by intros st. Qed.

Lemma keeps_bind {A C} (m : M A) (k : A -> M C) :
  keeps obs m -> (forall a, keeps obs (k a)) -> keeps obs (bind m k).
Proof.
  intros Hm Hk st. unfold bind. specialize (Hm st).
  destruct (m st) as [[a|e] st1]; simpl in *; [|done].
  by rewrite Hk.
Qed.

Lemma keeps_try_except {A} (m : M A) (h : exn -> M A) :
  keeps obs m -> (forall e, keeps obs (h e)) -> keeps obs (try_except m h).
Proof.
  intros Hm Hh st. unfold try_except. specialize (Hm st).
  destruct (m st) as [[a|e] st1]; simpl in *; [done|].
  by rewrite Hh.
Qed.

Lemma keeps_get_trace : keeps obs get_trace.
Proof. by intros st. Qed.

Lemma keeps_get_initialized : keeps obs get_initialized.
Proof. by intros st. Qed.

Lemma keeps_get_sessions : keeps obs BotService.get_sessions.
Proof. by intros st. Qed.

Lemma keeps_the_session (sid : pystr) : keeps obs (BotService.the_session sid).
Proof.
  intros st. unfold BotService.the_session, bind, BotService.get_sessions.
  by destruct (sessions st !! sid).
Qed.

End Frames.

(** The steps of a request through the monad, taken apart by the
    structure of the computation. *)
Ltac frame_step :=
  first
    [ apply keeps_ret | apply keeps_raise | apply keeps_lift
    | apply keeps_get_trace | apply keeps_get_initialized
    | apply keeps_get_sessions | apply keeps_the_session
    | apply keeps_bind; [|intros ?]
    | apply keeps_try_except; [|intros ?]
    | match goal with
      | |- keeps _ (if ?b then _ else _) => destruct b
      | |- keeps _ (match ?x with _ => _ end) => destruct x
      end ].

(** ** The orchestrator *)

Section Orchestrator.
Import BotService.
Context (w : world) (prompts : system_prompts).

(** *** The history is only written by [add_message] *)

Lemma keeps_history_now (sid : pystr) : keeps (history sid) (now w).
Proof. by intros st. Qed.

Lemma keeps_history_emit (sid : pystr) (ev : event) : keeps (history sid) (emit ev).
Proof. by intros st. Qed.

Lemma keeps_history_set_initialized (sid : pystr) (b : bool) :
  keeps (history sid) (set_initialized b).
Proof. by intros st. Qed.

Lemma keeps_history_search (sid : pystr) (q : value) (idata : option pydict)
      (k : Z) :
  keeps (history sid) (PineconeSearchService.search w q idata k).
Proof.
  unfold PineconeSearchService.search, PineconeSearchService._initialize.
  repeat first [ apply keeps_history_emit | apply keeps_history_set_initialized
               | frame_step ].
Qed.

Lemma keeps_history_create (sid : pystr) (req : chat_request) :
  keeps (history sid) (create w req).
Proof. unfold create. repeat first [apply keeps_history_emit | frame_step]. Qed.

Lemma keeps_history_update_context (sid sid' k : pystr) (v : value) :
  keeps (history sid') (update_context w sid k v).
Proof.
  intros st. unfold update_context, the_session, get_sessions, bind, ret, raise.
  destruct (sessions st !! sid) as [s|] eqn:Hs; simpl; [|done].
  unfold history. simpl.
  destruct (decide (sid = sid')) as [<-|Hne].
  - by rewrite lookup_insert_eq, Hs.
  - by rewrite lookup_insert_ne.
Qed.

Lemma keeps_history_get_context_window (sid sid' : pystr) (n : Z) :
  keeps (history sid') (BotService.get_context_window sid n).
Proof. unfold BotService.get_context_window. repeat frame_step. Qed.

Lemma keeps_history_extract_intent (sid sid' msg : pystr) :
  keeps (history sid') (_extract_intent w prompts msg sid).
Proof.
  unfold _extract_intent.
  repeat first [ apply keeps_history_get_context_window
               | apply keeps_history_create
               | apply keeps_history_update_context
               | frame_step ].
Qed.

Lemma keeps_history_execute_action (sid sid' msg action : pystr) (intent : pydict) :
  keeps (history sid') (_execute_action w prompts action intent msg sid).
Proof.
  unfold _execute_action, _execute_search, _execute_chat,
    _generate_search_response.
  repeat first [ apply keeps_history_get_context_window
               | apply keeps_history_create
               | apply keeps_history_search
               | frame_step ].
Qed.

(** *** The two writers of the session store *)

Lemma history_session (sid : pystr) (st : service) (h : list (pystr * value)) :
  history sid st = Some h -> is_Some (sessions st !! sid).
Proof. unfold history. by destruct (sessions st !! sid). Qed.

Lemma get_or_create_session_history (sid : pystr) (st : service) :
  (get_or_create_session w sid st).1 = Ret tt
  /\ history sid (get_or_create_session w sid st).2
     = Some (default [] (history sid st))
  /\ trace (get_or_create_session w sid st).2 = trace st
  /\ _initialized (get_or_create_session w sid st).2 = _initialized st.
Proof.
  unfold get_or_create_session, get_sessions, history, bind, ret, raise.
  destruct (sessions st !! sid) as [s|] eqn:Hs; simpl.
  - by rewrite Hs.
  - by rewrite lookup_insert_eq.
Qed.

Lemma add_message_history (sid role : pystr) (c : value) (st : service)
      (h : list (pystr * value)) :
  history sid st = Some h ->
  (add_message w sid role c st).1 = Ret tt
  /\ history sid (add_message w sid role c st).2 = Some (h ++ [(role, c)])
  /\ trace (add_message w sid role c st).2 = trace st
  /\ _initialized (add_message w sid role c st).2 = _initialized st.
Proof.
  unfold history, add_message, the_session, get_sessions, bind, ret, raise.
  destruct (sessions st !! sid) as [s|] eqn:Hs; simpl; [|done].
  intros [= <-]. rewrite lookup_insert_eq. simpl.
  by rewrite fmap_app.
Qed.

(** A response that an action produced carries no error. *)
Lemma execute_action_no_error (action msg sid : pystr) (intent : pydict)
      (st st' : service) (r : Response) :
  _execute_action w prompts action intent msg sid st = (Ret r, st') ->
  error r = None /\ BotService.intent r = Some intent
  /\ has_action_tag r.
Proof.
  unfold has_action_tag.
  unfold _execute_action, _execute_search, _execute_chat, _execute_clarify,
    try_except, bind, ret, lift.
  intros H. repeat case_match; simplify_eq; simpl; auto.
Qed.

(** C1, as the orchestrator behaves.  Every message gets a response, and
    the history of its session grows by the user entry followed, when an
    action produced the response, by one assistant entry holding that
    response.  When a step raised, the response is the fixed apology with
    the error tag, and the history holds the user entry only. *)
Theorem process_message_history (msg sid : pystr) (st : service) :
  exists (r : Response) (st' : service),
    process_message w prompts msg sid st = (Ret r, st')
    /\ history sid st'
       = Some (default [] (history sid st)
               ++ [(str "user", VStr msg)]
               ++ match error r with
                  | None => [(str "assistant", response r)]
                  | Some _ => []
                  end)
    /\ (forall e, error r = Some e -> r = error_response e)
    /\ (error r = None -> has_action_tag r).
Proof.
  pose proof (get_or_create_session_history sid st) as (G1 & G2 & _ & _).
  destruct (get_or_create_session w sid st) as [o1 st1] eqn:E1.
  simpl in G1, G2. subst o1.
  pose proof (add_message_history sid (str "user") (VStr msg) st1 _ G2)
    as (A1 & A2 & _ & _).
  destruct (add_message w sid (str "user") (VStr msg) st1) as [o2 st2] eqn:E2.
  simpl in A1, A2. subst o2.
  pose proof (keeps_history_extract_intent sid sid msg st2) as X.
  destruct (_extract_intent w prompts msg sid st2) as [o3 st3] eqn:E3.
  simpl in X. rewrite A2 in X.
  assert (forall st4, history sid st4 = history sid st3 ->
            history sid st4
            = Some (default [] (history sid st) ++ [(str "user", VStr msg)] ++ []))
    as Herr.
  { intros st4 H4. by rewrite H4, X, app_nil_r. }
  destruct o3 as [intent|e].
  2:{ exists (error_response e), st3. split; [|split; [|split]].
      - unfold process_message, try_except, bind. rewrite E1, E2, E3. done.
      - by apply Herr.
      - by intros e' [= <-].
      - done. }
  destruct (_decide_action intent) as [action|e] eqn:E4.
  2:{ exists (error_response e), st3. split; [|split; [|split]].
      - unfold process_message, try_except, bind, lift.
        rewrite E1, E2, E3, E4. done.
      - by apply Herr.
      - by intros e' [= <-].
      - done. }
  pose proof (keeps_history_execute_action sid sid msg action intent st3) as Y.
  destruct (_execute_action w prompts action intent msg sid st3)
    as [[r|e] st4] eqn:E5; simpl in Y.
  2:{ exists (error_response e), st4. split; [|split; [|split]].
      - unfold process_message, try_except, bind, lift.
        rewrite E1, E2, E3, E4, E5. done.
      - by apply Herr.
      - by intros e' [= <-].
      - done. }
  rewrite X in Y.
  pose proof (add_message_history sid (str "assistant") (response r) st4 _ Y)
    as (F1 & F2 & _ & _).
  destruct (add_message w sid (str "assistant") (response r) st4)
    as [o5 st5] eqn:E6.
  simpl in F1, F2. subst o5.
  apply execute_action_no_error in E5 as Hr. destruct Hr as (Hr1 & Hr2 & Hr3).
  exists r, st5. split; [|split; [|split]].
  - unfold process_message, try_except, bind, lift.
    rewrite E1, E2, E3, E4, E5, E6. done.
  - by rewrite F2, Hr1, <- app_assoc.
  - intros e He. congruence.
  - done.
Qed.

(** *** Classification *)

Lemma update_context_ok (sid k : pystr) (v : value) (st : service) :
  is_Some (sessions st !! sid) ->
  (update_context w sid k v st).1 = Ret tt
  /\ trace (update_context w sid k v st).2 = trace st
  /\ _initialized (update_context w sid k v st).2 = _initialized st
  /\ is_Some (sessions (update_context w sid k v st).2 !! sid).
Proof.
  intros [s Hs]. unfold update_context, the_session, get_sessions, bind, ret, raise.
  rewrite Hs. simpl. by rewrite lookup_insert_eq.
Qed.

(** [if v: session.update_context(k, v)]. *)
Lemma remember_ok (sid k : pystr) (v : value) (st : service) :
  is_Some (sessions st !! sid) ->
  exists st', (if py_truthy v then update_context w sid k v else ret tt) st
              = (Ret tt, st')
    /\ trace st' = trace st /\ _initialized st' = _initialized st
    /\ is_Some (sessions st' !! sid).
Proof.
  intros Hs. destruct (py_truthy v).
  - destruct (update_context_ok sid k v st Hs) as (H1 & H2 & H3 & H4).
    destruct (update_context w sid k v st) as [o st'] eqn:E. simpl in *. subst o.
    by exists st'.
  - by exists st.
Qed.

(** A classification that answers with a dictionary is returned as it
    is, after the one call of the language model it takes. *)
Lemma extract_intent_success (msg sid : pystr) (st : service) (c : value)
      (intent : pydict) :
  is_Some (sessions st !! sid) ->
  (forall req, chat_completions_create w (trace st) req = Ret c) ->
  json_loads w c = Ret (VDict intent) ->
  exists st' req,
    _extract_intent w prompts msg sid st = (Ret intent, st')
    /\ trace st' = trace st ++ [EvChat req]
    /\ json_object_format req = true
    /\ _initialized st' = _initialized st.
Proof.
  intros [s Hs] Hchat Hjson.
  set (req := intent_request prompts
                (ConversationSession.get_context_window s 5) msg).
  set (st1 := Service (sessions st) (_initialized st) (trace st ++ [EvChat req])
                      (ticks st)).
  assert (is_Some (sessions st1 !! sid)) as Hs1 by by exists s.
  destruct (remember_ok sid (str "last_attributes")
              (dict_get intent (str "attributes")) st1 Hs1)
    as (st2 & R1 & T1 & I1 & Hs2).
  destruct (remember_ok sid (str "last_category")
              (dict_get intent (str "category")) st2 Hs2)
    as (st3 & R2 & T2 & I2 & Hs3).
  exists st3, req. split; [|split; [|split]].
  - unfold _extract_intent, BotService.get_context_window, the_session,
      get_sessions, create, try_except, bind, ret, raise, get_trace, emit, lift.
    unfold ret in R1, R2.
    rewrite Hs. cbv beta iota. fold req. rewrite Hchat, Hjson. cbv beta iota.
    fold st1. rewrite R1. cbv beta iota. by rewrite R2.
  - by rewrite T2, T1.
  - done.
  - by rewrite I2, I1.
Qed.

(** A classification that fails gives the default intent. *)
Lemma extract_intent_failure (msg sid : pystr) (st : service) :
  is_Some (sessions st !! sid) ->
  (forall req, classification_fails w (trace st) req) ->
  exists st',
    _extract_intent w prompts msg sid st = (Ret (default_intent msg), st').
Proof.
  intros [s Hs] Hfail.
  specialize (Hfail (intent_request prompts
                       (ConversationSession.get_context_window s 5) msg)).
  unfold classification_fails in Hfail.
  unfold _extract_intent, BotService.get_context_window, the_session,
    get_sessions, create, try_except, bind, ret, raise, get_trace, emit, lift.
  rewrite Hs. cbv beta iota.
  destruct (chat_completions_create w _ _) as [c|e]; [|by eexists].
  destruct (json_loads w c) as [[]|e]; try done; by eexists.
Qed.

(** *** Off-topic messages *)

Lemma execute_chat_off_topic (intent : pydict) (msg sid : pystr) (st : service) :
  intent !! str "intent_type" = Some (VStr (str "off_topic")) ->
  is_Some (sessions st !! sid) ->
  _execute_action w prompts ACTION_CHAT intent msg sid st
  = (Ret (boundary_response intent), st).
Proof.
  intros Ht [s Hs]. unfold _execute_action.
  rewrite !bool_decide_eq_false_2 by (vm_compute; discriminate).
  unfold _execute_chat, BotService.get_context_window, the_session, get_sessions,
    bind, ret, dict_get_or.
  by rewrite Hs, Ht.
Qed.

(** C5. An off-topic intent is routed to chat whatever its other fields
    are; the chat branch answers with the fixed boundary message, no
    products and the chat tag, and leaves the service as it was, so that no
    search and no generation call is made.  A message classified as
    off-topic therefore costs exactly one call, the classification, and
    gets the boundary message. *)
Theorem off_topic_short_circuit (intent : pydict) :
  intent !! str "intent_type" = Some (VStr (str "off_topic")) ->
  _decide_action intent = Ret ACTION_CHAT
  /\ (forall msg sid st,
        is_Some (sessions st !! sid) ->
        _execute_action w prompts ACTION_CHAT intent msg sid st
        = (Ret (boundary_response intent), st))
  /\ (forall msg sid st c,
        (forall req, chat_completions_create w (trace st) req = Ret c) ->
        json_loads w c = Ret (VDict intent) ->
        exists st' req,
          process_message w prompts msg sid st
          = (Ret (boundary_response intent), st')
          /\ trace st' = trace st ++ [EvChat req]
          /\ json_object_format req = true
          /\ _initialized st' = _initialized st).
Proof.
  intros Ht.
  assert (_decide_action intent = Ret ACTION_CHAT) as Hd.
  { apply decide_action_off_topic. unfold dict_get_or. by rewrite Ht. }
  split; [done|]. split.
  { intros msg sid st Hs. by apply execute_chat_off_topic. }
  intros msg sid st c Hchat Hjson.
  pose proof (get_or_create_session_history sid st) as (G1 & G2 & G3 & G4).
  destruct (get_or_create_session w sid st) as [o1 st1] eqn:E1.
  simpl in G1, G2, G3, G4. subst o1.
  pose proof (add_message_history sid (str "user") (VStr msg) st1 _ G2)
    as (A1 & A2 & A3 & A4).
  destruct (add_message w sid (str "user") (VStr msg) st1) as [o2 st2] eqn:E2.
  simpl in A1, A2, A3, A4. subst o2.
  assert (is_Some (sessions st2 !! sid)) as Hs2 by by eapply history_session.
  rewrite <- G3, <- A3 in Hchat.
  destruct (extract_intent_success msg sid st2 c intent Hs2 Hchat Hjson)
    as (st3 & req & E3 & T3 & J3 & I3).
  pose proof (keeps_history_extract_intent sid sid msg st2) as X.
  rewrite E3 in X. simpl in X. rewrite A2 in X.
  assert (is_Some (sessions st3 !! sid)) as Hs3 by by eapply history_session.
  pose proof (execute_chat_off_topic intent msg sid st3 Ht Hs3) as E5.
  pose proof (add_message_history sid (str "assistant") (VStr boundary_message)
                st3 _ X) as (F1 & F2 & F3 & F4).
  destruct (add_message w sid (str "assistant") (VStr boundary_message) st3)
    as [o5 st5] eqn:E6.
  simpl in F1, F2, F3, F4. subst o5.
  exists st5, req. split; [|split; [|split]].
  - unfold process_message, try_except, bind, lift.
    rewrite E1, E2, E3, Hd, E5. simpl. by rewrite E6.
  - by rewrite F3, T3, A3, G3.
  - done.
  - by rewrite F4, I3, A4, G4.
Qed.

(** *** Failing soft *)

Lemma default_intent_routes_to_clarify (msg : pystr) :
  _decide_action (default_intent msg) = Ret ACTION_CLARIFY.
Proof. vm_compute. reflexivity. Qed.

Lemma execute_clarify_default (msg : pystr) :
  _execute_clarify (default_intent msg) = soft_response msg.
Proof. reflexivity. Qed.

End Orchestrator.

Lemma off_topic_short_circuit_witness :
  exists st' req,
    BotService.process_message off_topic_world no_prompts
      (str "What's the weather?") (str "default") fresh_service
    = (Ret (boundary_response confident_off_topic_intent), st')
    /\ trace st' = [EvChat req]
    /\ json_object_format req = true.
Proof.
  destruct (off_topic_short_circuit off_topic_world no_prompts
              confident_off_topic_intent eq_refl) as (_ & _ & H).
  destruct (H (str "What's the weather?") (str "default") fresh_service
              (VStr (str "{off_topic}")) (fun _ => eq_refl) eq_refl)
    as (st' & req & H1 & H2 & H3 & _).
  by exists st', req.
Defined.


(** C1 as stated fails on the error path.  The classifier answers with a
    confidence that is not a number, the router raises on the comparison,
    and the orchestrator returns the apology with the error tag; the
    history of the session then holds the user message and nothing else:
    the apology is returned but not recorded. *)
Lemma process_message_error_not_recorded :
  (BotService.process_message garbled_world no_prompts (str "hello")
     (str "default") fresh_service).1
  = Ret (BotService.error_response TypeError)
  /\ history (str "default")
       (BotService.process_message garbled_world no_prompts (str "hello")
          (str "default") fresh_service).2
     = Some [(str "user", VStr (str "hello"))].
Proof. split; vm_compute; reflexivity. Qed.

(** A search turn from end to end: the classifier finds a product search
    with confidence 0.9, the index returns one hit priced 2850 and out of
    stock.  The turn makes four calls, answers with the search tag, and the
    product carries the formatted price, the rounded score and the stock
    flag of the hit. *)
Example process_message_search_turn :
  let turn := BotService.process_message saree_world no_prompts
               (str "Do you have indigo ajrakh cotton saree under 3000?")
               (str "default") fresh_service in
  match turn.1 with
  | Ret r =>
      BotService.action r = BotService.ACTION_SEARCH
      /\ BotService.response r = VStr (str "Yes, we have 1 option.")
      /\ (fun p => (p !! str "name", p !! str "price", p !! str "in_stock",
                    p !! str "score")) <$> BotService.products r
         = [ (Some (VStr (str "Indigo Ajrakh Saree")),
              Some (VStr (BotService.currency_mark ++ str "2,850")),
              Some (VBool false),
              Some (VFloat (S754_finite false 7894810146780479 (-53)))) ]
  | Raise _ => False
  end
  /\ length (trace turn.2) = 4%nat
  /\ history (str "default") turn.2
     = Some [ (str "user",
               VStr (str "Do you have indigo ajrakh cotton saree under 3000?"));
              (str "assistant", VStr (str "Yes, we have 1 option.")) ].
Proof. vm_compute. repeat split. Qed.

(** ** The session store *)

Section SessionStore.
Import BotService.
Context (w : world) (prompts : system_prompts).

(** [get_or_create_session] creates an empty session under a key that has
    none and changes nothing under a key that has one, so that calling it
    again is a no-op; the sessions under other keys are left alone. *)
Theorem get_or_create_session_idempotent (sid : pystr) (st : service) :
  get_or_create_session w sid (get_or_create_session w sid st).2
  = (Ret tt, (get_or_create_session w sid st).2)
  /\ (is_Some (session_at sid st) -> get_or_create_session w sid st = (Ret tt, st))
  /\ (session_at sid st = None ->
      exists s, session_at sid (get_or_create_session w sid st).2 = Some s
                /\ ConversationSession.session_id s = sid
                /\ ConversationSession.messages s = []
                /\ ConversationSession.context s = ∅)
  /\ (forall sid', sid' ≠ sid ->
        session_at sid' (get_or_create_session w sid st).2 = session_at sid' st).
Proof.
  unfold session_at, get_or_create_session, get_sessions, set_session, now, bind, ret.
  destruct (sessions st !! sid) as [s|] eqn:Hs; simpl.
  - rewrite Hs. repeat split; done.
  - rewrite lookup_insert_eq. repeat split.
    + by intros [].
    + intros _. eexists. by split.
    + intros sid' Hne. by rewrite lookup_insert_ne.
Qed.

(** [clear_session] removes the session: no information is reported for
    it any more, the next [get_or_create_session] starts from an empty
    history, and clearing a key that has no session changes nothing.  The
    sessions under other keys are left alone. *)
Theorem clear_session_forgets (sid : pystr) (st : service) :
  (get_session_info sid (clear_session sid st).2).1 = Ret None
  /\ history sid (get_or_create_session w sid (clear_session sid st).2).2 = Some []
  /\ (session_at sid st = None -> clear_session sid st = (Ret tt, st))
  /\ (forall sid', sid' ≠ sid ->
        session_at sid' (clear_session sid st).2 = session_at sid' st).
Proof.
  unfold session_at, history, get_session_info, get_or_create_session, get_sessions,
    set_session, clear_session, now, bind, ret.
  simpl. rewrite lookup_delete_eq. simpl. rewrite lookup_insert_eq.
  repeat split; try done.
  - intros Hs. rewrite delete_id by done. by destruct st.
  - intros sid' Hne. by rewrite lookup_delete_ne.
Qed.

End SessionStore.

(** ** What a step may touch, and how many calls it may make *)

Section Budget.
Import BotService.
Context (w : world) (prompts : system_prompts).

Lemma keeps_trace_now : keeps trace (now w).
Proof. by intros st. Qed.

Lemma keeps_trace_set_session (sid : pystr) (s : ConversationSession.t) :
  keeps trace (set_session sid s).
Proof. by intros st. Qed.

Lemma keeps_trace_set_initialized (b : bool) : keeps trace (set_initialized b).
Proof. by intros st. Qed.

Ltac trace_step :=
  first [ apply keeps_trace_now | apply keeps_trace_set_session
        | apply keeps_trace_set_initialized | frame_step ].

Lemma keeps_trace_update_context (sid k : pystr) (v : value) :
  keeps trace (update_context w sid k v).
Proof. unfold update_context. repeat trace_step. Qed.

Lemma keeps_trace_add_message (sid role : pystr) (c : value) :
  keeps trace (add_message w sid role c).
Proof. unfold add_message. repeat trace_step. Qed.

Lemma keeps_trace_get_or_create_session (sid : pystr) :
  keeps trace (get_or_create_session w sid).
Proof. unfold get_or_create_session. repeat trace_step. Qed.

Lemma keeps_trace_get_context_window (sid : pystr) (n : Z) :
  keeps trace (BotService.get_context_window sid n).
Proof. unfold BotService.get_context_window. repeat trace_step. Qed.

Lemma within_keeps {A} (m : M A) : keeps trace m -> within 0 m.
Proof. intros H st. exists []. by rewrite H, app_nil_r. Qed.

Lemma within_le {A} (n n' : nat) (m : M A) :
  within n m -> (n <= n')%nat -> within n' m.
Proof. intros H Hle st. destruct (H st) as (evs & E & L). exists evs. split; [done|lia]. Qed.

Lemma within_bind {A C} (a b : nat) (m : M A) (k : A -> M C) :
  within a m -> (forall x, within b (k x)) -> within (a + b) (bind m k).
Proof.
  intros Hm Hk st. unfold bind. destruct (Hm st) as (evs & E & L).
  destruct (m st) as [[x|e] st1]; simpl in *.
  - destruct (Hk x st1) as (evs' & E' & L'). exists (evs ++ evs').
    rewrite E', E, length_app, app_assoc. split; [done|lia].
  - exists evs. split; [done|lia].
Qed.

Lemma within_try_except {A} (a b : nat) (m : M A) (h : exn -> M A) :
  within a m -> (forall e, within b (h e)) -> within (a + b) (try_except m h).
Proof.
  intros Hm Hh st. unfold try_except. destruct (Hm st) as (evs & E & L).
  destruct (m st) as [[x|e] st1]; simpl in *.
  - exists evs. split; [done|lia].
  - destruct (Hh e st1) as (evs' & E' & L'). exists (evs ++ evs').
    rewrite E', E, length_app, app_assoc. split; [done|lia].
Qed.

Lemma within_emit (ev : event) : within 1 (emit ev).
Proof. intros st. by exists [ev]. Qed.

Lemma within_ret {A} (n : nat) (a : A) : within n (ret a).
Proof. apply (within_le 0); [|lia]. apply within_keeps, keeps_ret. Qed.

Lemma within_lift {A} (n : nat) (x : outcome A) : within n (lift x).
Proof. apply (within_le 0); [|lia]. apply within_keeps, keeps_lift. Qed.

Lemma within_create (req : chat_request) : within 1 (create w req).
Proof.
  unfold create. apply (within_bind 0 1); [apply within_keeps, keeps_get_trace|].
  intros tr. apply (within_bind 1 0); [apply within_emit|].
  intros _. apply within_lift.
Qed.

Lemma within_initialize : within 1 (PineconeSearchService._initialize w).
Proof.
  unfold PineconeSearchService._initialize.
  apply (within_bind 0 1); [apply within_keeps, keeps_get_initialized|].
  intros [|]; [apply within_ret|].
  apply (within_bind 0 1); [apply within_keeps, keeps_get_trace|]. intros tr.
  apply (within_bind 1 0); [apply within_emit|]. intros _.
  apply (within_bind 0 0); [apply within_lift|]. intros _.
  apply within_keeps, keeps_trace_set_initialized.
Qed.

Lemma within_search (q : value) (idata : option pydict) (k : Z) :
  within 2 (PineconeSearchService.search w q idata k).
Proof.
  unfold PineconeSearchService.search.
  apply (within_bind 1 1); [apply within_initialize|]. intros _.
  apply (within_bind 0 1); [apply within_lift|]. intros [|]; [apply within_ret|].
  apply (within_bind 0 1); [apply within_lift|]. intros fd.
  apply (within_try_except 1 0); [|intros e; apply within_ret].
  apply (within_bind 0 1); [apply within_keeps, keeps_get_trace|]. intros tr.
  apply (within_bind 1 0); [apply within_emit|]. intros _.
  apply (within_bind 0 0); [apply within_lift|]. intros results.
  apply within_lift.
Qed.

Lemma within_execute_action (action msg sid : pystr) (intent : pydict) :
  within 3 (_execute_action w prompts action intent msg sid).
Proof.
  unfold _execute_action. destruct (bool_decide _).
  - unfold _execute_search.
    apply (within_bind 2 1); [apply within_search|]. intros matches.
    apply (within_bind 0 1); [apply within_lift|]. intros products.
    apply (within_bind 1 0); [|intros r; apply within_ret].
    unfold _generate_search_response.
    apply (within_bind 0 1); [apply within_lift|]. intros qd.
    apply (within_try_except 1 0); [apply within_create|].
    intros e; apply within_ret.
  - destruct (bool_decide _); [apply within_ret|].
    unfold _execute_chat. apply (within_le 1); [|lia].
    apply (within_bind 0 1);
      [apply within_keeps, keeps_trace_get_context_window|].
    intros cm. destruct (py_eq_str _ _); [apply within_ret|].
    apply (within_try_except 1 0); [|intros e; apply within_ret].
    apply (within_bind 1 0); [apply within_create|]. intros c. apply within_ret.
Qed.

End Budget.

(** ** Turns *)

Section Turns.
Import BotService.
Context (w : world) (prompts : system_prompts).

Lemma add_message_session (sid role : pystr) (c : value) (st : service)
      (s : ConversationSession.t) :
  session_at sid st = Some s ->
  exists st' t0 t1,
    add_message w sid role c st = (Ret tt, st')
    /\ session_at sid st' = Some (ConversationSession.add_message s role c t0 t1)
    /\ trace st' = trace st
    /\ _initialized st' = _initialized st
    /\ (forall sid', sid' ≠ sid -> session_at sid' st' = session_at sid' st).
Proof.
  unfold session_at. intros Hs.
  unfold add_message, the_session, get_sessions, set_session, now, bind, ret.
  rewrite Hs. simpl. do 3 eexists. split; [done|]. simpl.
  rewrite lookup_insert_eq. repeat split; try done.
  intros sid' Hne. by rewrite lookup_insert_ne.
Qed.

Lemma get_or_create_session_present (sid : pystr) (st : service) :
  exists st' s,
    get_or_create_session w sid st = (Ret tt, st')
    /\ session_at sid st' = Some s
    /\ (forall s0, session_at sid st = Some s0 -> s = s0)
    /\ (session_at sid st = None -> ConversationSession.messages s = [])
    /\ trace st' = trace st
    /\ _initialized st' = _initialized st
    /\ (forall sid', sid' ≠ sid -> session_at sid' st' = session_at sid' st).
Proof.
  unfold session_at, get_or_create_session, get_sessions, set_session, now, bind, ret.
  destruct (sessions st !! sid) as [s|] eqn:Hs; simpl.
  - exists st, s. repeat split; try done. by intros s0 [= <-].
  - do 2 eexists. split; [done|]. simpl. rewrite lookup_insert_eq.
    repeat split; try done. intros sid' Hne. by rewrite lookup_insert_ne.
Qed.

(** The recent view of a history that ends with [m] ends with [m]. *)
Lemma get_context_window_last (s : ConversationSession.t)
      (l : list ConversationSession.message) (m : ConversationSession.message)
      (n : nat) :
  (1 <= n)%nat ->
  ConversationSession.messages s = l ++ [m] ->
  exists pre, ConversationSession.get_context_window s (Z.of_nat n) = pre ++ [view m].
Proof.
  intros Hn Hm. rewrite get_context_window_positive by done.
  rewrite Hm, length_app. simpl.
  exists (view <$> drop (length l + 1 - Nat.min n (length l + 1)) l).
  rewrite drop_app_le by lia. by rewrite fmap_app.
Qed.

(** The extractor makes exactly one call, the classification, whatever
    comes back from it. *)
Lemma extract_intent_trace (msg sid : pystr) (st : service)
      (s : ConversationSession.t) :
  session_at sid st = Some s ->
  exists intent st',
    _extract_intent w prompts msg sid st = (Ret intent, st')
    /\ trace st'
       = trace st
         ++ [EvChat (intent_request prompts
                       (ConversationSession.get_context_window s 5) msg)]
    /\ _initialized st' = _initialized st.
Proof.
  unfold session_at. intros Hs.
  set (req := intent_request prompts
                (ConversationSession.get_context_window s 5) msg).
  set (st1 := Service (sessions st) (_initialized st) (trace st ++ [EvChat req])
                      (ticks st)).
  assert (_extract_intent w prompts msg sid st
          = match chat_completions_create w (trace st) req with
            | Ret c =>
                match json_loads w c with
                | Ret (VDict intent) =>
                    try_except
                      ((run (if py_truthy (dict_get intent (str "attributes"))
                             then update_context w sid (str "last_attributes")
                                    (dict_get intent (str "attributes"))
                             else ret tt);
                        run (if py_truthy (dict_get intent (str "category"))
                             then update_context w sid (str "last_category")
                                    (dict_get intent (str "category"))
                             else ret tt);
                        ret intent))
                      (fun _ => ret (default_intent msg)) st1
                | _ => (Ret (default_intent msg), st1)
                end
            | Raise _ => (Ret (default_intent msg), st1)
            end) as ->.
  { unfold _extract_intent, BotService.get_context_window, the_session,
      get_sessions, create, try_except, bind, ret, raise, get_trace, emit, lift.
    rewrite Hs. cbv beta iota. fold req. fold st1.
    destruct (chat_completions_create w (trace st) req) as [c|e]; [|done].
    by destruct (json_loads w c) as [[]|e]. }
  destruct (chat_completions_create w (trace st) req) as [c|e]; [|by do 2 eexists].
  destruct (json_loads w c) as [parsed|e]; [|by do 2 eexists].
  destruct parsed as [| | | | | |intent]; try by do 2 eexists.
  assert (is_Some (sessions st1 !! sid)) as Hs1 by by exists s.
  destruct (remember_ok w sid (str "last_attributes")
              (dict_get intent (str "attributes")) st1 Hs1)
    as (st2 & R1 & T1 & I1 & Hs2).
  destruct (remember_ok w sid (str "last_category")
              (dict_get intent (str "category")) st2 Hs2)
    as (st3 & R2 & T2 & I2 & Hs3).
  exists intent, st3. split; [|split].
  - unfold try_except, bind. rewrite R1. cbv beta iota. by rewrite R2.
  - by rewrite T2, T1.
  - by rewrite I2, I1.
Qed.

(** A turn, up to the extracted intent. *)
Lemma process_message_after_intent (msg sid : pystr) (st st1 st2 st3 : service)
      (intent : pydict) :
  get_or_create_session w sid st = (Ret tt, st1) ->
  add_message w sid (str "user") (VStr msg) st1 = (Ret tt, st2) ->
  _extract_intent w prompts msg sid st2 = (Ret intent, st3) ->
  process_message w prompts msg sid st
  = try_except (respond w prompts msg sid intent)
               (fun e => ret (error_response e)) st3.
Proof.
  intros E1 E2 E3. unfold process_message, respond, try_except, bind.
  by rewrite E1, E2, E3.
Qed.

Lemma within_respond (msg sid : pystr) (intent : pydict) :
  within 3 (try_except (respond w prompts msg sid intent)
                       (fun e => ret (error_response e))).
Proof.
  apply (within_try_except 3 0); [|intros e; apply within_ret].
  unfold respond. apply (within_bind 0 3); [apply within_lift|]. intros action.
  apply (within_bind 3 0); [apply within_execute_action|]. intros r.
  apply (within_bind 0 0); [apply within_keeps, keeps_trace_add_message|].
  intros _. apply within_ret.
Qed.

(** Every turn starts with the classification call, made in JSON mode,
    and makes at most three more calls after it (client construction,
    index query, generation). *)
Theorem process_message_call_budget (msg sid : pystr) (st : service) :
  exists req rest,
    trace (process_message w prompts msg sid st).2 = trace st ++ EvChat req :: rest
    /\ json_object_format req = true
    /\ (length rest <= 3)%nat.
Proof.
  destruct (get_or_create_session_present sid st)
    as (st1 & s1 & E1 & S1 & _ & _ & T1 & _ & _).
  destruct (add_message_session sid (str "user") (VStr msg) st1 s1 S1)
    as (st2 & t0 & t1 & E2 & S2 & T2 & _ & _).
  destruct (extract_intent_trace msg sid st2 _ S2) as (intent & st3 & E3 & T3 & _).
  rewrite (process_message_after_intent msg sid st st1 st2 st3 intent E1 E2 E3).
  destruct (within_respond msg sid intent st3) as (rest & Hrest & Hlen).
  eexists _, rest. split; [|split; [|done]].
  - rewrite Hrest, T3, T2, T1, <- app_assoc. reflexivity.
  - reflexivity.
Qed.

(** The user message reaches the classifier twice: it is recorded in the
    history before the extractor reads the recent view, and the extractor
    appends it once more after that view. *)
Theorem process_message_repeats_user_message (msg sid : pystr) (st : service) :
  exists req rest pre,
    trace (process_message w prompts msg sid st).2 = trace st ++ EvChat req :: rest
    /\ chat_messages req
       = pre ++ [(str "user", VStr msg); (str "user", VStr msg)].
Proof.
  destruct (get_or_create_session_present sid st)
    as (st1 & s1 & E1 & S1 & _ & _ & T1 & _ & _).
  destruct (add_message_session sid (str "user") (VStr msg) st1 s1 S1)
    as (st2 & t0 & t1 & E2 & S2 & T2 & _ & _).
  destruct (extract_intent_trace msg sid st2 _ S2) as (intent & st3 & E3 & T3 & _).
  rewrite (process_message_after_intent msg sid st st1 st2 st3 intent E1 E2 E3).
  destruct (within_respond msg sid intent st3) as (rest & Hrest & Hlen).
  destruct (get_context_window_last
              (ConversationSession.add_message s1 (str "user") (VStr msg) t0 t1)
              (ConversationSession.messages s1)
              (ConversationSession.Message (str "user") (VStr msg) t0) 5)
    as (pre & Hpre); [lia|done|].
  eexists _, rest, ([(str "system", VStr (intent_system_prompt prompts))] ++ pre).
  split.
  - rewrite Hrest, T3, T2, T1, <- app_assoc. reflexivity.
  - unfold intent_request. simpl. change (Z.pos 5) with (Z.of_nat 5).
    rewrite Hpre. by rewrite <- app_assoc.
Qed.

End Turns.

(** ** The intent of a turn *)

Section TurnIntent.
Import BotService.
Context (w : world) (prompts : system_prompts).

Lemma window_recent (s : ConversationSession.t) :
  ConversationSession.get_context_window s 5
  = recent 5 (view <$> ConversationSession.messages s).
Proof.
  change 5 with (Z.of_nat 5). rewrite get_context_window_positive by lia.
  unfold recent. rewrite length_fmap, fmap_drop. f_equal. lia.
Qed.

Lemma execute_clarify_response (intent : pydict) :
  _execute_clarify intent = clarify_response intent.
Proof.
  unfold _execute_clarify, clarify_response. by destruct (py_truthy _).
Qed.

Lemma classified_failure (tr : list event) (req : chat_request) (msg : pystr) :
  classification_fails w tr req -> classified w tr req msg = default_intent msg.
Proof.
  unfold classification_fails, classified.
  destruct (chat_completions_create w tr req) as [c|e]; [|done].
  by destruct (json_loads w c) as [[]|e].
Qed.

(** The extractor returns the intent its one request yields. *)
Lemma extract_intent_yields (msg sid : pystr) (st : service)
      (s : ConversationSession.t) :
  session_at sid st = Some s ->
  exists st',
    _extract_intent w prompts msg sid st
    = (Ret (classified w (trace st)
              (intent_request prompts
                 (ConversationSession.get_context_window s 5) msg) msg), st')
    /\ trace st'
       = trace st
         ++ [EvChat (intent_request prompts
                       (ConversationSession.get_context_window s 5) msg)]
    /\ _initialized st' = _initialized st.
Proof.
  unfold session_at, classified. intros Hs.
  set (req := intent_request prompts
                (ConversationSession.get_context_window s 5) msg).
  set (st1 := Service (sessions st) (_initialized st) (trace st ++ [EvChat req])
                      (ticks st)).
  assert (_extract_intent w prompts msg sid st
          = match chat_completions_create w (trace st) req with
            | Ret c =>
                match json_loads w c with
                | Ret (VDict intent) =>
                    try_except
                      ((run (if py_truthy (dict_get intent (str "attributes"))
                             then update_context w sid (str "last_attributes")
                                    (dict_get intent (str "attributes"))
                             else ret tt);
                        run (if py_truthy (dict_get intent (str "category"))
                             then update_context w sid (str "last_category")
                                    (dict_get intent (str "category"))
                             else ret tt);
                        ret intent))
                      (fun _ => ret (default_intent msg)) st1
                | _ => (Ret (default_intent msg), st1)
                end
            | Raise _ => (Ret (default_intent msg), st1)
            end) as ->.
  { unfold _extract_intent, BotService.get_context_window, the_session,
      get_sessions, create, try_except, bind, ret, raise, get_trace, emit, lift.
    rewrite Hs. cbv beta iota. fold req. fold st1.
    destruct (chat_completions_create w (trace st) req) as [c|e]; [|done].
    by destruct (json_loads w c) as [[]|e]. }
  destruct (chat_completions_create w (trace st) req) as [c|e]; [|by eexists].
  destruct (json_loads w c) as [parsed|e]; [|by eexists].
  destruct parsed as [| | | | | |intent]; try by eexists.
  assert (is_Some (sessions st1 !! sid)) as Hs1 by by exists s.
  destruct (remember_ok w sid (str "last_attributes")
              (dict_get intent (str "attributes")) st1 Hs1)
    as (st2 & R1 & T1 & I1 & Hs2).
  destruct (remember_ok w sid (str "last_category")
              (dict_get intent (str "category")) st2 Hs2)
    as (st3 & R2 & T2 & I2 & Hs3).
  exists st3. split; [|split].
  - unfold try_except, bind. rewrite R1. cbv beta iota. by rewrite R2.
  - by rewrite T2, T1.
  - by rewrite I2, I1.
Qed.

(** A turn up to its intent: the session exists, the message is
    recorded, and the one classification call has been made. *)
Lemma turn_start (msg sid : pystr) (st : service) :
  exists st3,
    process_message w prompts msg sid st
    = try_except (respond w prompts msg sid (turn_intent w prompts msg sid st))
                 (fun e => ret (error_response e)) st3
    /\ trace st3 = trace st ++ [EvChat (turn_request prompts msg sid st)]
    /\ history sid st3
       = Some (default [] (history sid st) ++ [(str "user", VStr msg)])
    /\ _initialized st3 = _initialized st.
Proof.
  pose proof (get_or_create_session_history w sid st) as (G1 & G2 & G3 & G4).
  destruct (get_or_create_session w sid st) as [o1 st1] eqn:E1.
  simpl in G1, G2, G3, G4. subst o1.
  pose proof (add_message_history w sid (str "user") (VStr msg) st1 _ G2)
    as (A1 & A2 & A3 & A4).
  destruct (add_message w sid (str "user") (VStr msg) st1) as [o2 st2] eqn:E2.
  simpl in A1, A2, A3, A4. subst o2.
  destruct (history_session _ _ _ A2) as [s2 Hs2].
  assert (view <$> ConversationSession.messages s2
          = default [] (history sid st) ++ [(str "user", VStr msg)]) as Hview.
  { unfold history in A2. rewrite Hs2 in A2. simpl in A2. by injection A2. }
  destruct (extract_intent_yields msg sid st2 s2 Hs2) as (st3 & E3 & T3 & I3).
  rewrite window_recent, Hview, A3, G3 in E3, T3.
  exists st3. split; [|split; [|split]].
  - by apply (process_message_after_intent w prompts msg sid st st1 st2 st3).
  - exact T3.
  - pose proof (keeps_history_extract_intent w prompts sid sid msg st2) as X.
    rewrite E3 in X. simpl in X. by rewrite X.
  - by rewrite I3, A4, G4.
Qed.

(** The answer to an intent that the router sends to clarification. *)
Lemma respond_clarify (msg sid : pystr) (intent : pydict) (st : service)
      (h : list (pystr * value)) :
  history sid st = Some h ->
  _decide_action intent = Ret ACTION_CLARIFY ->
  exists st',
    try_except (respond w prompts msg sid intent)
               (fun e => ret (error_response e)) st
    = (Ret (clarify_response intent), st')
    /\ trace st' = trace st.
Proof.
  intros Hh Hd.
  pose proof (add_message_history w sid (str "assistant")
                (response (clarify_response intent)) st _ Hh) as (F1 & _ & F3 & _).
  destruct (add_message w sid (str "assistant")
              (response (clarify_response intent)) st) as [o st'] eqn:E.
  simpl in F1, F3. subst o. exists st'. split; [|done].
  unfold respond, try_except, bind, lift. rewrite Hd.
  unfold _execute_action.
  rewrite bool_decide_eq_false_2 by (vm_compute; discriminate).
  rewrite bool_decide_eq_true_2 by reflexivity.
  unfold ret. rewrite execute_clarify_response. by rewrite E.
Qed.

(** C6. When the classification call of a turn raises, or its output
    does not parse to a dictionary, the extractor returns the default
    intent: a general question, the raw text as search query, confidence
    0.5 and no clarification needed.  The turn then completes with the
    generic clarification, not with an error. *)
Theorem extract_intent_fail_soft (msg sid : pystr) (st : service) :
  (forall s,
     session_at sid st = Some s ->
     classification_fails w (trace st)
       (intent_request prompts (ConversationSession.get_context_window s 5) msg) ->
     (_extract_intent w prompts msg sid st).1 = Ret (default_intent msg))
  /\ default_intent msg !! str "intent_type" = Some (VStr (str "general_question"))
  /\ default_intent msg !! str "search_query" = Some (VStr msg)
  /\ default_intent msg !! str "confidence" = Some (VFloat float_0_5)
  /\ default_intent msg !! str "needs_clarification" = Some (VBool false)
  /\ (classification_fails w (trace st) (turn_request prompts msg sid st) ->
      exists st',
        process_message w prompts msg sid st = (Ret (soft_response msg), st')).
Proof.
  split; [|split; [|split; [|split; [|split]]]].
  { intros s Hs Hfail.
    destruct (extract_intent_yields msg sid st s Hs) as (st' & E & _).
    by rewrite E, classified_failure. }
  1-4: vm_compute; reflexivity.
  intros Hfail.
  destruct (turn_start msg sid st) as (st3 & E & _ & H3 & _).
  unfold turn_intent in E. rewrite classified_failure in E by done.
  destruct (respond_clarify msg sid (default_intent msg) st3 _ H3
              (default_intent_routes_to_clarify msg)) as (st' & E' & _).
  exists st'. by rewrite E, E'.
Qed.

End TurnIntent.

Lemma extract_intent_fail_soft_witness :
  exists st',
    BotService.process_message offline_world no_prompts (str "hello")
      (str "default") fresh_service
    = (Ret (soft_response (str "hello")), st').
Proof.
  destruct (extract_intent_fail_soft offline_world no_prompts (str "hello")
              (str "default") fresh_service)
    as (_ & _ & _ & _ & _ & H).
  exact (H I).
Defined.

(** ** Sessions do not interfere *)

Section Isolation.
Import BotService.
Context (w : world) (prompts : system_prompts) (sid sid' : pystr).
Hypothesis Hother : sid' ≠ sid.

Lemma keeps_at_now : keeps (session_at sid') (now w).
Proof. by intros st. Qed.

Lemma keeps_at_emit (ev : event) : keeps (session_at sid') (emit ev).
Proof. by intros st. Qed.

Lemma keeps_at_set_initialized (b : bool) :
  keeps (session_at sid') (set_initialized b).
Proof. by intros st. Qed.

Lemma keeps_at_set_session (s : ConversationSession.t) :
  keeps (session_at sid') (set_session sid s).
Proof. intros st. unfold session_at. simpl. by rewrite lookup_insert_ne. Qed.

Ltac at_step :=
  first [ apply keeps_at_now | apply keeps_at_emit | apply keeps_at_set_initialized
        | apply keeps_at_set_session | frame_step ].

(** A turn in one session leaves every other session as it was: its
    history, its context and its time stamps. *)
Theorem process_message_isolated (msg : pystr) (st : service) :
  session_at sid' (process_message w prompts msg sid st).2 = session_at sid' st.
Proof.
  revert st. change (keeps (session_at sid') (process_message w prompts msg sid)).
  unfold process_message, get_or_create_session, add_message, _extract_intent,
    update_context, BotService.get_context_window, create, _execute_action,
    _execute_search, _execute_chat, _generate_search_response,
    PineconeSearchService.search, PineconeSearchService._initialize,
    BotService.get_context_window, create.
  repeat at_step.
Qed.

End Isolation.

Lemma process_message_isolated_witness :
  session_at (str "a")
    (BotService.process_message saree_world no_prompts (str "any saree?") (str "b")
       service_with_a).2
  = session_at (str "a") service_with_a
  /\ is_Some (session_at (str "a") service_with_a).
Proof.
  split.
  - apply (process_message_isolated saree_world no_prompts (str "b") (str "a")).
    vm_compute. discriminate.
  - vm_compute. eauto.
Defined.

(** ** More on the router *)

Section RouterVerdicts.
Import BotService.

Ltac verdict :=
  first [ done | by intros [? _] | by intros (_ & ? & _) | by intros (_ & _ & ?)
        | let H := fresh in
          intros H; injection H as H; vm_compute in H; discriminate H ].

Lemma py_eq_str_exclusive (v : value) (s t : pystr) :
  s ≠ t -> py_eq_str v s = true -> py_eq_str v t = false.
Proof.
  destruct v; simpl; try done. intros Hne Hs.
  apply bool_decide_eq_true in Hs. subst. by apply bool_decide_eq_false.
Qed.

(** The router searches exactly when the intent is a product search, no
    clarification is asked for and the confidence is a number that is not
    below 0.6. *)
Theorem decide_action_search_iff (intent : pydict) :
  _decide_action intent = Ret ACTION_SEARCH
  <-> py_eq_str (dict_get_or intent (str "intent_type")
                             (VStr (str "general_question")))
                (str "product_search") = true
      /\ py_truthy (dict_get_or intent (str "needs_clarification") (VBool false))
         = false
      /\ py_lt_float (dict_get_or intent (str "confidence") (VFloat float_0_5))
                     float_0_6 = Ret false.
Proof.
  unfold _decide_action.
  destruct (py_eq_str _ (str "off_topic")) eqn:Hoff.
  - apply (py_eq_str_exclusive _ _ (str "product_search")) in Hoff;
      [|vm_compute; discriminate].
    rewrite Hoff. split; verdict.
  - destruct (py_truthy _); [split; verdict|].
    destruct (py_lt_float _ _) as [[]|e]; simpl; [split; verdict| |split; verdict].
    destruct (py_eq_str _ (str "product_search")); split; verdict.
Qed.

(** An intent that carries no confidence is never searched: the default
    of 0.5 is below the threshold, so unless it is off-topic the router
    asks for clarification, whatever its type. *)
Theorem decide_action_without_confidence (intent : pydict) :
  intent !! str "confidence" = None ->
  _decide_action intent
  = Ret (if py_eq_str (dict_get_or intent (str "intent_type")
                                   (VStr (str "general_question")))
                      (str "off_topic")
         then ACTION_CHAT else ACTION_CLARIFY).
Proof.
  intros Hc. unfold _decide_action.
  rewrite (dict_get_or_absent _ _ _ Hc).
  destruct (py_eq_str _ (str "off_topic")); [done|].
  by destruct (py_truthy _).
Qed.

Lemma decide_action_without_confidence_witness :
  _decide_action {[ str "intent_type" := VStr (str "product_search") ]}
  = Ret ACTION_CLARIFY.
Proof.
  exact (decide_action_without_confidence
           {[ str "intent_type" := VStr (str "product_search") ]} eq_refl).
Defined.

End RouterVerdicts.

(** ** More on the filter builder *)

Section FilterRanges.
Import PineconeSearchService.

Lemma price_filter_lookup (price_range : value) (fd : filter) :
  fd !! str "price" = None ->
  price_filter price_range fd !! str "price" = range_constraint price_range.
Proof.
  intros Hfd. unfold price_filter, range_constraint.
  destruct price_range as [| | | | | |pr]; simpl;
    try (by repeat case_match).
  destruct (bool_decide (pr = ∅)) eqn:Hpr; simpl.
  { apply bool_decide_eq_true in Hpr. subst. by rewrite Hfd. }
  destruct (py_truthy (dict_get pr (str "min"))),
           (py_truthy (dict_get pr (str "max"))); simpl.
  - rewrite lookup_insert_eq. rewrite lookup_insert_eq.
    by f_equal.
  - by rewrite lookup_insert_eq.
  - rewrite Hfd. by rewrite lookup_insert_eq.
  - done.
Qed.

Lemma price_filter_lookup_ne (price_range : value) (fd : filter) (k : pystr) :
  k ≠ str "price" -> price_filter price_range fd !! k = fd !! k.
Proof.
  intros Hne. unfold price_filter.
  repeat case_match; rewrite ?lookup_insert_ne by done; done.
Qed.

Ltac skip_key := rewrite set_if_lookup_ne by (vm_compute; discriminate).
Ltac skip_price := rewrite price_filter_lookup_ne by (vm_compute; discriminate).

(** The filter built from an intent whose attributes are a mapping has
    an equality constraint for each of the six fields whose value is
    truthy, a price constraint made of the truthy bounds of a [price_range]
    mapping (so that a bound of 0 is dropped), and no other key. *)
Theorem build_filter_constraints (intent_data attrs : pydict) :
  dict_get_or intent_data (str "attributes") (VDict ∅) = VDict attrs ->
  exists fd : filter,
    _build_filter intent_data = Ret fd
    /\ fd !! str "category" = eq_constraint (dict_get intent_data (str "category"))
    /\ fd !! str "subcategory"
       = eq_constraint (dict_get intent_data (str "subcategory"))
    /\ fd !! str "color" = eq_constraint (dict_get attrs (str "color"))
    /\ fd !! str "fabric" = eq_constraint (dict_get attrs (str "fabric"))
    /\ fd !! str "technique" = eq_constraint (dict_get attrs (str "technique"))
    /\ fd !! str "pattern" = eq_constraint (dict_get attrs (str "pattern"))
    /\ fd !! str "price" = range_constraint (dict_get attrs (str "price_range"))
    /\ forall k : pystr,
         k ∉ [str "category"; str "subcategory"; str "color"; str "fabric";
              str "technique"; str "pattern"; str "price"] ->
         fd !! k = None.
Proof.
  intros Hattrs. eexists. split.
  { unfold _build_filter. rewrite Hattrs. reflexivity. }
  repeat split.
  - skip_price. repeat skip_key. rewrite set_if_lookup. by destruct (eq_constraint _).
  - skip_price. repeat skip_key. rewrite set_if_lookup. skip_key.
    by destruct (eq_constraint _).
  - skip_price. repeat skip_key. rewrite set_if_lookup. repeat skip_key.
    by destruct (eq_constraint _).
  - skip_price. repeat skip_key. rewrite set_if_lookup. repeat skip_key.
    by destruct (eq_constraint _).
  - skip_price. repeat skip_key. rewrite set_if_lookup. repeat skip_key.
    by destruct (eq_constraint _).
  - skip_price. rewrite set_if_lookup. repeat skip_key.
    by destruct (eq_constraint _).
  - apply price_filter_lookup. by repeat skip_key.
  - intros k Hk.
    rewrite price_filter_lookup_ne by (intros ->; apply Hk; set_solver).
    repeat (rewrite set_if_lookup_ne by (intros <-; apply Hk; set_solver)).
    done.
Qed.

Lemma build_filter_constraints_witness :
  exists fd : filter,
    _build_filter zero_to_4000 = Ret fd
    /\ fd !! str "price" = Some {[ str "$lte" := VInt 4000 ]}
    /\ fd !! str "color" = None.
Proof.
  destruct (build_filter_constraints zero_to_4000
              {[ str "price_range" :=
                   VDict {[ str "min" := VInt 0; str "max" := VInt 4000 ]} ]}
              eq_refl)
    as (fd & H & _ & _ & Hc & _ & _ & _ & Hp & _).
  exists fd. split; [exact H|]. split; [exact Hp | exact Hc].
Defined.

End FilterRanges.

(** ** More on the retrieval adapter *)

Section Hits.
Import PineconeSearchService.
Context (w : world).

Lemma hits_to_matches_mappings (ds : list pydict) :
  hits_to_matches (VDict <$> ds) = Ret (match_of_hit <$> ds).
Proof.
  induction ds as [|d ds IH]; [done|].
  cbn [fmap list_fmap hits_to_matches attr_get obind].
  change (list_fmap _ _ VDict ds) with (VDict <$> ds). by rewrite IH.
Qed.

Lemma hits_to_matches_malformed (hits : list value) (h : value) :
  h ∈ hits -> not_a_mapping h -> hits_to_matches hits = Raise AttributeError.
Proof.
  intros Hin Hbad. induction hits as [|x hits IH]; [by apply elem_of_nil in Hin|].
  apply elem_of_cons in Hin as [<-|Hin].
  - by destruct h.
  - simpl. destruct x; try done. simpl. by rewrite (IH Hin).
Qed.

(** An answer whose hits are all mappings gives one match per hit, in
    the order of the answer; a hit without [_id] gets [None], without
    [_score] the score 0, and without [fields] the empty metadata. *)
Theorem convert_results_one_match_per_hit (r : pydict) (ds : list pydict) :
  r !! str "hits" = Some (VList (VDict <$> ds)) ->
  _convert_results_to_matches (SearchResponse true (Some (VDict r)))
  = Ret (match_of_hit <$> ds)
  /\ match_of_hit ∅ = MkMatch VNone (VInt 0) (VDict ∅).
Proof.
  intros Hhits. split; [|done].
  unfold _convert_results_to_matches. simpl.
  assert (r ≠ ∅) as Hne by (intros ->; by rewrite lookup_empty in Hhits).
  rewrite bool_decide_eq_false_2 by done. simpl.
  unfold dict_get_or. rewrite Hhits. simpl. apply hits_to_matches_mappings.
Qed.

Lemma convert_results_one_match_per_hit_witness :
  _convert_results_to_matches
    (SearchResponse true
       (Some (VDict {[ str "hits" := VList (VDict <$> [∅; ∅]) ]})))
  = Ret [MkMatch VNone (VInt 0) (VDict ∅); MkMatch VNone (VInt 0) (VDict ∅)].
Proof.
  exact (proj1 (convert_results_one_match_per_hit
                  {[ str "hits" := VList (VDict <$> [∅; ∅]) ]} [∅; ∅] eq_refl)).
Defined.

(** One hit that is not a mapping loses the whole answer: on an
    initialised adapter, a search whose answer holds such a hit returns no
    match at all, the well-formed hits included. *)
Theorem search_malformed_hit_loses_all (s : pystr) (idata : option pydict) (k : Z)
        (st : service) (fd : filter) (truthy : bool) (r : pydict)
        (hits : list value) (h : value) :
  forallb py_isspace s = false ->
  _initialized st = true ->
  filter_for idata = Ret fd ->
  index_search w (trace st) (query_of (VStr s) k)
  = Ret (SearchResponse truthy (Some (VDict r))) ->
  r !! str "hits" = Some (VList hits) ->
  h ∈ hits -> not_a_mapping h ->
  (search w (VStr s) idata k st).1 = Ret [].
Proof.
  intros Hs Hinit Hfd Hidx Hhits Hin Hbad.
  rewrite (search_after_init w _ _ _ st st) by by apply initialize_ready.
  rewrite blank_query_str, Hs, Hfd, Hidx. cbv zeta.
  assert (r ≠ ∅) as Hne by (intros ->; by rewrite lookup_empty in Hhits).
  unfold _convert_results_to_matches. simpl.
  rewrite bool_decide_eq_false_2 by done. simpl.
  destruct truthy; [|done]. simpl.
  unfold dict_get_or. rewrite Hhits. simpl.
  by rewrite (hits_to_matches_malformed hits h Hin Hbad).
Qed.

End Hits.

Lemma search_malformed_hit_loses_all_witness :
  (PineconeSearchService.search mixed_hits_world (VStr (str "indigo saree")) None 10
          (Service ∅ true [] 0)).1 = Ret [].
Proof.
  apply (search_malformed_hit_loses_all mixed_hits_world (str "indigo saree") None 10
           (Service ∅ true [] 0) ∅ true
           {[ str "hits" := VList [saree_hit; VStr (str "sku-8")] ]}
           [saree_hit; VStr (str "sku-8")] (VStr (str "sku-8"))).
  - reflexivity.
  - reflexivity.
  - reflexivity.
  - reflexivity.
  - reflexivity.
  - apply elem_of_cons. right. apply elem_of_cons. by left.
  - exact I.
Defined.

(** ** The adapter across calls *)

Section AdapterState.
Import PineconeSearchService.
Context (w : world).

(** On an initialised adapter a search leaves the adapter initialised
    and makes no call but, at most, the index query. *)
Lemma search_initialized (q : value) (idata : option pydict) (k : Z)
      (st : service) :
  _initialized st = true ->
  _initialized (search w q idata k st).2 = true
  /\ (trace (search w q idata k st).2 = trace st
      \/ trace (search w q idata k st).2
         = trace st ++ [EvIndexSearch (query_of q k)]).
Proof.
  intros Hinit.
  rewrite (search_after_init w _ _ _ st st) by by apply initialize_ready.
  destruct (blank_query q) as [[]|e]; [by split; [|left]| |by split; [|left]].
  destruct (filter_for idata) as [fd|e]; [|by split; [|left]].
  cbv zeta. destruct (index_search w _ _) as [results|e]; [|by split; [|right]].
  by destruct (_convert_results_to_matches results); (split; [|right]).
Qed.

(** The client is constructed at most once: when the adapter is
    initialised, or can be, a search leaves it initialised, and no later
    search constructs the client again. *)
Theorem search_initializes_once (q q' : value) (idata idata' : option pydict)
        (k k' : Z) (st : service) :
  _initialized st = true \/ pinecone_connect w (trace st) = Ret tt ->
  _initialized (search w q idata k st).2 = true
  /\ exists evs,
       trace (search w q' idata' k' (search w q idata k st).2).2
       = trace (search w q idata k st).2 ++ evs
       /\ EvPineconeInit ∉ evs.
Proof.
  intros Hinit.
  assert (_initialized (search w q idata k st).2 = true) as Hafter.
  { destruct (_initialized st) eqn:Hi; [by apply search_initialized|].
    destruct Hinit as [|Hc]; [done|].
    rewrite (search_after_init w _ _ _ st _ (initialize_connects w st Hi Hc)).
    destruct (blank_query q) as [[]|e]; [done| |done].
    destruct (filter_for idata) as [fd|e]; [|done].
    cbv zeta. destruct (index_search w _ _) as [results|e]; [|done].
    by destruct (_convert_results_to_matches results). }
  split; [done|].
  destruct (search_initialized q' idata' k' _ Hafter) as [_ [Ht|Ht]].
  - exists []. rewrite Ht, app_nil_r. split; [done|]. apply not_elem_of_nil.
  - eexists. split; [exact Ht|]. intros Hin.
    apply elem_of_cons in Hin as [Hin|Hin]; [discriminate Hin|].
    by apply elem_of_nil in Hin.
Qed.

(** The filter is built and then left aside: the query that is sent and
    the matches that come back are the same for any two intents whose
    filters can be built. *)
Theorem search_filter_not_sent (q : value) (idata idata' : option pydict) (k : Z)
        (st : service) (fd fd' : filter) :
  filter_for idata = Ret fd -> filter_for idata' = Ret fd' ->
  search w q idata k st = search w q idata' k st.
Proof.
  intros H H'. unfold search, bind, lift.
  destruct (_initialize w st) as [[[]|e] st1]; [|done].
  destruct (blank_query q) as [[]|e]; [done| |done].
  by rewrite H, H'.
Qed.

End AdapterState.

Lemma search_initializes_once_witness :
  _initialized
    (PineconeSearchService.search saree_world (VStr (str "saree")) None 10
       fresh_service).2 = true.
Proof.
  apply (search_initializes_once saree_world (VStr (str "saree"))
           (VStr (str "stole")) None None 10 10 fresh_service).
  right. reflexivity.
Defined.

Lemma search_filter_not_sent_witness :
  PineconeSearchService.search saree_world (VStr (str "saree")) None 10 fresh_service
  = PineconeSearchService.search saree_world (VStr (str "saree"))
      (Some {[ str "category" := VStr (str "Stole") ]}) 10 fresh_service.
Proof.
  apply (search_filter_not_sent saree_world _ _ _ _ _ ∅
           {[ str "category" := {[ str "$eq" := VStr (str "Stole") ]} ]}).
  - reflexivity.
  - vm_compute. reflexivity.
Defined.

(** ** More on product records *)

Section ProductLists.
Import BotService.
Context (w : world).

(** When the formatter returns, it returns one record per match, in the
    order of the matches, each the record of its match and carrying its
    identifier. *)
Theorem format_products_pointwise (matches : list Match) (ps : list pydict) :
  _format_products w matches = Ret ps ->
  length ps = length matches
  /\ forall i m, matches !! i = Some m ->
       exists p, ps !! i = Some p
                 /\ format_product w m = Ret p
                 /\ p !! str "id" = Some (id m).
Proof.
  revert ps. induction matches as [|m0 matches IH]; intros ps; simpl.
  - intros [= <-]. split; [done|]. by intros i m.
  - destruct (format_product w m0) as [p0|e] eqn:Hp0; simpl; [|done].
    destruct (_format_products w matches) as [ps0|e]; simpl; [|done].
    intros [= <-]. destruct (IH ps0 eq_refl) as [Hlen Hall].
    split; [simpl; by rewrite Hlen|].
    intros [|i] m Hm; simpl in Hm.
    + injection Hm as <-. exists p0. repeat split; try done.
      unfold format_product in Hp0.
      destruct (metadata m0); try done.
      destruct (price_formatted w _); [|done].
      destruct (py_round4 _); [|done].
      simpl in Hp0. injection Hp0 as <-. vm_compute. reflexivity.
    + by apply Hall.
Qed.

(** A record cannot be made exactly for the matches whose metadata is
    not a mapping, whose score is not a number, or whose price is an
    integer too large for a float; and one such match makes the formatter
    raise for the whole list, the good matches included. *)
Theorem format_products_one_failure (m : Match) :
  ((exists e, format_product w m = Raise e) <-> no_record m)
  /\ (forall matches, m ∈ matches -> no_record m ->
      exists e, _format_products w matches = Raise e).
Proof.
  assert ((exists e, format_product w m = Raise e) <-> no_record m) as Hiff.
  { unfold no_record, format_product.
    destruct (metadata m) as [| | | | | |md]; try (split; [done|by eexists]).
    split.
    - intros [e Hm].
      destruct (price_formatted w _) as [price|e0] eqn:Hprice; simpl in Hm.
      + right. by destruct (score m).
      + left. unfold price_formatted in Hprice.
        destruct (negb _ && _); [|done].
        unfold oversized_price.
        destruct (dict_get_or md (str "price") (VStr (str "N/A")));
          simpl in Hprice; try done.
        * exists z. split; [done|]. by destruct (Num.is_infinity _).
        * by destruct (float_of_str w s).
    - intros [(z & Hz & Hinf)|Hscore].
      + unfold price_formatted. rewrite Hz. simpl.
        assert (z ≠ 0) as Hnz by (intros ->; by vm_compute in Hinf).
        apply Z.eqb_neq in Hnz. rewrite Hnz, Hinf. simpl. by eexists.
      + destruct (price_formatted w _); simpl; [|by eexists].
        destruct (score m); simpl; try done; by eexists. }
  split; [done|].
  intros matches Hin Hbad. apply Hiff in Hbad as [e Hm].
  induction matches as [|m0 matches IH]; [by apply elem_of_nil in Hin|].
  apply elem_of_cons in Hin as [<-|Hin]; simpl.
  - rewrite Hm. by eexists.
  - destruct (format_product w m0); simpl; [|by eexists].
    destruct (IH Hin) as [e' ->]. by eexists.
Qed.

End ProductLists.

Lemma format_products_pointwise_witness :
  length [bare_product; bare_product] = length [bare_match; bare_match].
Proof.
  apply (format_products_pointwise offline_world [bare_match; bare_match]
           [bare_product; bare_product]).
  vm_compute. reflexivity.
Defined.

Lemma format_products_one_failure_witness :
  exists e,
    BotService._format_products offline_world [bare_match; unscored_match]
    = Raise e.
Proof.
  apply (proj2 (format_products_one_failure offline_world unscored_match)).
  - apply elem_of_cons. right. apply elem_of_cons. by left.
  - right. exact I.
Defined.

(** ** Prices *)

Section Prices.
Import BotService.
Context (w : world).

(** A price that is missing, empty or zero reads ["N/A"]; a text that is
    not a number is shown as it is; and formatting a price raises only for
    an integer too large for a float. *)
Theorem price_formatted_edges :
  (forall v, py_truthy v = false -> price_formatted w v = Ret (str "N/A"))
  /\ (forall s, float_of_str w s = None -> s ≠ [] ->
      price_formatted w (VStr s) = Ret s)
  /\ (forall v e, price_formatted w v = Raise e ->
      e = OverflowError
      /\ exists z, v = VInt z /\ Num.is_infinity (Num.float_of_Z z) = true).
Proof.
  split; [|split].
  - intros v Hv. unfold price_formatted. by rewrite Hv, andb_false_r.
  - intros s Hs Hne. unfold price_formatted. simpl. rewrite Hs.
    destruct s; [done|]. simpl.
    by destruct (bool_decide _) eqn:E; [apply bool_decide_eq_true in E as ->|].
  - intros v e. unfold price_formatted.
    destruct (negb _ && _); [|done].
    destruct v; simpl; try done.
    + destruct (Num.is_infinity (Num.float_of_Z z)) eqn:Hz; [|done].
      intros [= <-]. split; [done|]. by exists z.
    + by destruct (float_of_str w s).
Qed.

End Prices.

(** ** The clarify and chat branches *)

Section Branches.
Import BotService.
Context (w : world) (prompts : system_prompts).


(** A message that the router sends to clarification costs one call, the
    classification, and is answered with the question the classifier
    proposed, or with the generic one when it proposed none; no products
    are returned.  A message whose classification failed is such a
    message. *)
Theorem clarify_turn (msg sid : pystr) (st : service) :
  (classification_fails w (trace st) (turn_request prompts msg sid st) ->
   _decide_action (turn_intent w prompts msg sid st) = Ret ACTION_CLARIFY)
  /\ (_decide_action (turn_intent w prompts msg sid st) = Ret ACTION_CLARIFY ->
      exists st',
        process_message w prompts msg sid st
        = (Ret (clarify_response (turn_intent w prompts msg sid st)), st')
        /\ trace st' = trace st ++ [EvChat (turn_request prompts msg sid st)]).
Proof.
  split.
  - intros Hfail. unfold turn_intent. rewrite classified_failure by done.
    apply default_intent_routes_to_clarify.
  - intros Hd.
    destruct (turn_start w prompts msg sid st) as (st3 & E & T3 & H3 & _).
    destruct (respond_clarify w prompts msg sid _ st3 _ H3 Hd) as (st' & E' & T').
    exists st'. split; [by rewrite E, E'|]. by rewrite T', T3.
Qed.

(** The chat branch never fails on a message that is not off-topic: it
    makes one generation call and answers with what the model said, or
    with the fixed greeting when the call raised. *)
Theorem execute_chat_never_fails (intent : pydict) (msg sid : pystr)
        (st : service) (s : ConversationSession.t) :
  session_at sid st = Some s ->
  py_eq_str (dict_get_or intent (str "intent_type")
                         (VStr (str "general_question")))
            (str "off_topic") = false ->
  exists st',
    _execute_action w prompts ACTION_CHAT intent msg sid st
    = (Ret (MkResponse
              match chat_completions_create w (trace st)
                      (chat_request_of prompts
                         (ConversationSession.get_context_window s 5) msg) with
              | Ret c => c
              | Raise _ => VStr fallback_greeting
              end [] ACTION_CHAT (Some intent) None), st')
    /\ trace st'
       = trace st
         ++ [EvChat (chat_request_of prompts
                       (ConversationSession.get_context_window s 5) msg)]
    /\ sessions st' = sessions st.
Proof.
  unfold session_at. intros Hs Ht. unfold _execute_action.
  rewrite !bool_decide_eq_false_2 by (vm_compute; discriminate).
  unfold _execute_chat, BotService.get_context_window, the_session, get_sessions,
    create, try_except, bind, ret, get_trace, emit, lift.
  rewrite Hs, Ht. cbv beta iota.
  destruct (chat_completions_create w _ _); by eexists.
Qed.

End Branches.

Lemma clarify_turn_witness :
  exists st',
    BotService.process_message which_fabric_world no_prompts (str "something nice")
      (str "default") fresh_service
    = (Ret (BotService.MkResponse (VStr (str "Which fabric do you prefer?")) []
              BotService.ACTION_CLARIFY (Some which_fabric_intent) None), st')
    /\ length (trace st') = 1%nat.
Proof.
  destruct (proj2 (clarify_turn which_fabric_world no_prompts
                     (str "something nice") (str "default") fresh_service)
                  eq_refl) as (st' & H & T).
  exists st'. split; [exact H|]. by rewrite T.
Defined.

Lemma execute_chat_never_fails_witness :
  exists st',
    BotService._execute_action offline_world no_prompts BotService.ACTION_CHAT ∅
      (str "hello") (str "a") service_with_a
    = (Ret (BotService.MkResponse (VStr BotService.fallback_greeting) []
              BotService.ACTION_CHAT (Some ∅) None), st').
Proof.
  destruct (execute_chat_never_fails offline_world no_prompts ∅ (str "hello")
              (str "a") service_with_a
              (default (ConversationSession.init [] 0 0)
                       (session_at (str "a") service_with_a))
              ltac:(vm_compute; reflexivity) eq_refl) as (st' & H & _).
  exists st'. exact H.
Defined.

(** ** The search branch without matches *)

Section SearchBranch.
Import BotService.
Context (w : world) (prompts : system_prompts).

Lemma intent_data_attributes (intent : pydict) :
  dict_get_or (intent_data_of intent) (str "attributes") (VDict ∅)
  = dict_get_or intent (str "attributes") (VDict ∅).
Proof.
  unfold intent_data_of, dict_get_or at 1. simpl.
  rewrite !lookup_insert_ne by (vm_compute; discriminate).
  by rewrite lookup_insert_eq.
Qed.

Lemma intent_data_truthy (intent : pydict) :
  py_truthy (VDict (intent_data_of intent)) = true.
Proof.
  simpl. rewrite bool_decide_eq_false_2; [done|].
  intros H. apply (f_equal (fun d => d !! str "category")) in H.
  unfold intent_data_of in H. simpl in H.
  by rewrite lookup_insert_eq, lookup_empty in H.
Qed.

Lemma build_filter_returns (intent_data attrs : pydict) :
  dict_get_or intent_data (str "attributes") (VDict ∅) = VDict attrs ->
  exists fd, PineconeSearchService._build_filter intent_data = Ret fd.
Proof.
  intros H. unfold PineconeSearchService._build_filter. rewrite H. by eexists.
Qed.

Lemma query_description_returns (intent attrs : pydict) :
  dict_get_or intent (str "attributes") (VDict ∅) = VDict attrs ->
  exists qd, query_description w intent = Ret qd.
Proof.
  intros H. unfold query_description. rewrite H.
  destruct (search_terms w attrs); by eexists.
Qed.

(** With an intent whose search query is text and whose attributes are a
    mapping, on an initialised adapter, a search that retrieves nothing
    (blank query, failed index query, answer that cannot be converted)
    still ends well.  The branch makes the index query unless the query is
    blank, then one generation call with the prompt for no products; it
    answers with no products, the search tag, and as text what that call
    returned or, when that call raised too, the fixed line saying that
    nothing matches the request. *)
Theorem execute_search_without_matches (intent attrs : pydict) (s msg sid : pystr)
        (st : service) :
  _initialized st = true ->
  dict_get_or intent (str "search_query") (VStr []) = VStr s ->
  dict_get_or intent (str "attributes") (VDict ∅) = VDict attrs ->
  forallb py_isspace s = true
  \/ retrieval_fails w (trace st) (query_of (VStr s) 10) ->
  exists st' qd,
    query_description w intent = Ret qd
    /\ _execute_action w prompts ACTION_SEARCH intent msg sid st
       = (Ret (empty_search_response intent
                 match chat_completions_create w (searched_trace st s)
                         (search_request prompts (search_user_prompt w qd [])) with
                 | Ret c => c
                 | Raise _ => VStr (search_fallback qd [])
                 end), st')
    /\ trace st'
       = searched_trace st s
         ++ [EvChat (search_request prompts (search_user_prompt w qd []))]
    /\ sessions st' = sessions st.
Proof.
  intros Hinit Hq Hattrs Hnone.
  destruct (query_description_returns intent attrs Hattrs) as [qd Hqd].
  destruct (build_filter_returns (intent_data_of intent) attrs) as (fd & Hfd).
  { by rewrite intent_data_attributes. }
  assert (exists st1, PineconeSearchService.search w (VStr s)
                        (Some (intent_data_of intent)) 10 st = (Ret [], st1)
                      /\ sessions st1 = sessions st
                      /\ trace st1 = searched_trace st s)
    as (st1 & Hsearch & Hs1 & Ht1).
  { rewrite (search_after_init w _ _ _ st st) by by apply initialize_ready.
    rewrite blank_query_str. unfold searched_trace.
    destruct (forallb py_isspace s) eqn:Hblank.
    { exists st. by rewrite app_nil_r. }
    destruct Hnone as [|Hfail]; [done|].
    unfold PineconeSearchService.filter_for.
    rewrite intent_data_truthy, Hfd. cbv zeta.
    unfold retrieval_fails in Hfail.
    destruct (index_search w _ _) as [results|e]; [|by eexists].
    destruct (PineconeSearchService._convert_results_to_matches results);
      [done|by eexists]. }
  unfold _execute_action. rewrite bool_decide_eq_true_2 by reflexivity.
  unfold _execute_search. fold (intent_data_of intent). rewrite Hq.
  unfold bind at 1. rewrite Hsearch.
  unfold bind at 1. unfold lift at 1. cbn [_format_products].
  unfold _generate_search_response, try_except, create, bind, lift, ret,
    get_trace, emit.
  rewrite Hqd. cbv beta iota. rewrite Ht1.
  eexists. exists qd. split; [done|].
  destruct (chat_completions_create w _ _) as [text|e];
    (split; [reflexivity|]; split;
     [cbn [trace]; reflexivity | cbn [sessions]; exact Hs1]).
Qed.

End SearchBranch.

Lemma execute_search_without_matches_witness :
  exists st',
    BotService._execute_action index_down_world no_prompts BotService.ACTION_SEARCH
      saree_intent (str "any saree?") (str "a") (Service ∅ true [] 0)
    = (Ret (empty_search_response saree_intent
              (VStr (BotService.search_fallback
                       (str "color: indigo, fabric: cotton, under "
                        ++ BotService.currency_mark ++ str "3000") []))), st').
Proof.
  destruct (execute_search_without_matches index_down_world no_prompts saree_intent
              (list_to_map [ (str "color", VStr (str "indigo"));
                             (str "fabric", VStr (str "cotton"));
                             (str "price_max", VInt 3000) ])
              (str "indigo ajrakh cotton saree") (str "any saree?") (str "a")
              (Service ∅ true [] 0) eq_refl eq_refl eq_refl (or_intror I))
    as (st' & qd & Hqd & H & _).
  exists st'. injection Hqd as <-. exact H.
Defined.

(** The same turn run: the index is down and so is the generation, and
    the customer reads the fixed line built from the search terms. *)
Example search_turn_with_everything_down :
  (BotService.process_message index_down_world no_prompts (str "any saree?")
     (str "default") fresh_service).1
  = Ret (empty_search_response saree_intent
           (VStr (str "I couldn't find any products matching color: indigo, fabric: cotton, under "
                  ++ BotService.currency_mark
                  ++ str "3000. Would you like to try a different color or style?"))).
Proof. vm_compute. reflexivity. Qed.

(** ** What a turn leaves in the session *)

Section SessionAfterTurn.
Import BotService.
Context (w : world) (prompts : system_prompts).

Lemma reported_count_history (sid : pystr) (st : service) :
  reported_count sid st = length (default [] (history sid st)).
Proof.
  unfold reported_count, history, get_session_info, get_sessions, bind, ret. simpl.
  destruct (sessions st !! sid); simpl; [|done]. by rewrite length_fmap.
Qed.

(** The history after a turn (the statement of the orchestrator's
    bookkeeping, for use below). *)
Lemma process_message_turn (msg sid : pystr) (st : service) :
  exists r st',
    process_message w prompts msg sid st = (Ret r, st')
    /\ history sid st'
       = Some (default [] (history sid st)
               ++ [(str "user", VStr msg)]
               ++ match error r with
                  | None => [(str "assistant", response r)]
                  | Some _ => []
                  end).
Proof.
  pose proof (get_or_create_session_history w sid st) as (G1 & G2 & _ & _).
  destruct (get_or_create_session w sid st) as [o1 st1] eqn:E1.
  simpl in G1, G2. subst o1.
  pose proof (add_message_history w sid (str "user") (VStr msg) st1 _ G2)
    as (A1 & A2 & _ & _).
  destruct (add_message w sid (str "user") (VStr msg) st1) as [o2 st2] eqn:E2.
  simpl in A1, A2. subst o2.
  destruct (extract_intent_trace w prompts msg sid st2
              (default (ConversationSession.init [] 0 0) (session_at sid st2)))
    as (intent & st3 & E3 & _).
  { unfold session_at. apply history_session in A2 as [s ->]. done. }
  pose proof (keeps_history_extract_intent w prompts sid sid msg st2) as X.
  rewrite E3 in X. simpl in X. rewrite A2 in X.
  rewrite (process_message_after_intent w prompts msg sid st st1 st2 st3 intent
             E1 E2 E3).
  unfold respond, try_except, bind, lift.
  destruct (_decide_action intent) as [action|e].
  2:{ exists (error_response e), st3. split; [done|]. by rewrite X, app_nil_r. }
  pose proof (keeps_history_execute_action w prompts sid sid msg action intent st3)
    as Y.
  destruct (_execute_action w prompts action intent msg sid st3)
    as [[r|e] st4] eqn:E5; simpl in Y.
  2:{ exists (error_response e), st4. split; [done|]. by rewrite Y, X, app_nil_r. }
  rewrite X in Y.
  pose proof (add_message_history w sid (str "assistant") (response r) st4 _ Y)
    as (F1 & F2 & _ & _).
  destruct (add_message w sid (str "assistant") (response r) st4)
    as [o5 st5] eqn:E6.
  simpl in F1, F2. subst o5.
  apply execute_action_no_error in E5 as (Hr & _).
  exists r, st5. split; [done|]. by rewrite F2, Hr, <- app_assoc.
Qed.

(** After a turn, [get_session_info] reports two more messages than
    before when the turn was answered by an action, and one more when it
    ended with the apology; a session that did not exist counts from 0. *)
Theorem turn_message_count (msg sid : pystr) (st : service) :
  exists r st',
    process_message w prompts msg sid st = (Ret r, st')
    /\ reported_count sid st'
       = (reported_count sid st
          + match error r with None => 2 | Some _ => 1 end)%nat.
Proof.
  destruct (process_message_turn msg sid st) as (r & st' & E & H).
  exists r, st'. split; [done|].
  rewrite !reported_count_history, H. simpl.
  rewrite length_app. simpl. destruct (error r); simpl; lia.
Qed.

Ltac context_lookups :=
  (split; [|split]);
  [ by repeat first [ rewrite lookup_insert_eq
                    | rewrite lookup_insert_ne by (vm_compute; discriminate) ]
  | by repeat first [ rewrite lookup_insert_eq
                    | rewrite lookup_insert_ne by (vm_compute; discriminate) ]
  | intros k Hk1 Hk2; by rewrite ?lookup_insert_ne by done ].

Lemma update_context_session (sid k : pystr) (v : value) (st : service)
      (s : ConversationSession.t) :
  session_at sid st = Some s ->
  exists st' t,
    update_context w sid k v st = (Ret tt, st')
    /\ session_at sid st' = Some (ConversationSession.update_context s k v t)
    /\ trace st' = trace st.
Proof.
  unfold session_at. intros Hs.
  unfold update_context, the_session, get_sessions, set_session, now, bind, ret.
  rewrite Hs. simpl. do 2 eexists. split; [done|]. simpl.
  by rewrite lookup_insert_eq.
Qed.

(** The session remembers the last attributes and the last category that
    a classification found: a truthy value overwrites what was remembered,
    a missing or empty one leaves it, and nothing else in the context or
    in the history changes. *)
Theorem extract_intent_remembers (msg sid : pystr) (st : service)
        (s : ConversationSession.t) (c : value) (intent : pydict) :
  session_at sid st = Some s ->
  chat_completions_create w (trace st)
    (intent_request prompts (ConversationSession.get_context_window s 5) msg)
  = Ret c ->
  json_loads w c = Ret (VDict intent) ->
  exists st' s',
    _extract_intent w prompts msg sid st = (Ret intent, st')
    /\ session_at sid st' = Some s'
    /\ ConversationSession.messages s' = ConversationSession.messages s
    /\ ConversationSession.context s' !! str "last_attributes"
       = remembered (dict_get intent (str "attributes"))
                    (ConversationSession.context s !! str "last_attributes")
    /\ ConversationSession.context s' !! str "last_category"
       = remembered (dict_get intent (str "category"))
                    (ConversationSession.context s !! str "last_category")
    /\ forall k, k ≠ str "last_attributes" -> k ≠ str "last_category" ->
         ConversationSession.context s' !! k = ConversationSession.context s !! k.
Proof.
  intros Hs Hchat Hjson.
  set (req := intent_request prompts
                (ConversationSession.get_context_window s 5) msg) in *.
  set (st1 := Service (sessions st) (_initialized st) (trace st ++ [EvChat req])
                      (ticks st)).
  assert (session_at sid st1 = Some s) as Hs1 by done.
  assert (exists st2 s2,
            (if py_truthy (dict_get intent (str "attributes"))
             then update_context w sid (str "last_attributes")
                    (dict_get intent (str "attributes"))
             else ret tt) st1 = (Ret tt, st2)
            /\ session_at sid st2 = Some s2
            /\ ConversationSession.messages s2 = ConversationSession.messages s
            /\ ConversationSession.context s2
               = (if py_truthy (dict_get intent (str "attributes"))
                  then <[str "last_attributes" := dict_get intent (str "attributes")]>
                         (ConversationSession.context s)
                  else ConversationSession.context s))
    as (st2 & s2 & R1 & Hs2 & M2 & C2).
  { destruct (py_truthy (dict_get intent (str "attributes")));
      [|by exists st1, s].
    destruct (update_context_session sid (str "last_attributes")
                (dict_get intent (str "attributes")) st1 s Hs1)
      as (st2 & t & E & S & _).
    by eexists _, _. }
  assert (exists st3 s3,
            (if py_truthy (dict_get intent (str "category"))
             then update_context w sid (str "last_category")
                    (dict_get intent (str "category"))
             else ret tt) st2 = (Ret tt, st3)
            /\ session_at sid st3 = Some s3
            /\ ConversationSession.messages s3 = ConversationSession.messages s2
            /\ ConversationSession.context s3
               = (if py_truthy (dict_get intent (str "category"))
                  then <[str "last_category" := dict_get intent (str "category")]>
                         (ConversationSession.context s2)
                  else ConversationSession.context s2))
    as (st3 & s3 & R2 & Hs3 & M3 & C3).
  { destruct (py_truthy (dict_get intent (str "category")));
      [|by exists st2, s2].
    destruct (update_context_session sid (str "last_category")
                (dict_get intent (str "category")) st2 s2 Hs2)
      as (st3 & t & E & S & _).
    by eexists _, _. }
  exists st3, s3. split; [|split; [done|split; [congruence|]]].
  { unfold _extract_intent, BotService.get_context_window, the_session,
      get_sessions, create, try_except, bind, raise, get_trace, emit, lift.
    unfold session_at in Hs. unfold ret at 1 2. rewrite Hs. cbv beta iota.
    fold req. rewrite Hchat, Hjson. cbv beta iota. fold st1.
    rewrite R1. cbv beta iota. by rewrite R2. }
  rewrite C3, C2. unfold remembered.
  destruct (py_truthy (dict_get intent (str "attributes"))),
           (py_truthy (dict_get intent (str "category")));
    context_lookups.
Qed.

End SessionAfterTurn.

Lemma extract_intent_remembers_witness :
  exists st' s',
    BotService._extract_intent saree_world no_prompts (str "any saree?") (str "a")
      service_with_a = (Ret saree_intent, st')
    /\ session_at (str "a") st' = Some s'
    /\ ConversationSession.context s' !! str "last_category"
       = Some (VStr (str "Saree")).
Proof.
  destruct (extract_intent_remembers saree_world no_prompts (str "any saree?")
              (str "a") service_with_a
              (default (ConversationSession.init [] 0 0)
                       (session_at (str "a") service_with_a))
              (VStr (str "Yes, we have 1 option.")) saree_intent
              ltac:(vm_compute; reflexivity) eq_refl eq_refl)
    as (st' & s' & H1 & H2 & _ & _ & H3 & _).
  exists st', s'. split; [exact H1|]. split; [exact H2|]. exact H3.
Defined.

(** ** A search intent whose attributes are not a mapping *)

Section NullAttributes.
Import BotService.
Context (w : world) (prompts : system_prompts).

Lemma build_filter_not_mapping (intent_data : pydict) :
  not_a_mapping (dict_get_or intent_data (str "attributes") (VDict ∅)) ->
  PineconeSearchService._build_filter intent_data = Raise AttributeError.
Proof.
  intros H. unfold PineconeSearchService._build_filter.
  by destruct (dict_get_or intent_data (str "attributes") (VDict ∅)).
Qed.

Lemma query_description_not_mapping (intent : pydict) :
  not_a_mapping (dict_get_or intent (str "attributes") (VDict ∅)) ->
  query_description w intent = Raise AttributeError.
Proof.
  intros H. unfold query_description.
  by destruct (dict_get_or intent (str "attributes") (VDict ∅)).
Qed.

Lemma execute_search_not_mapping (intent : pydict) (st : service) :
  not_a_mapping (dict_get_or intent (str "attributes") (VDict ∅)) ->
  exists e st', _execute_search w prompts intent st = (Raise e, st').
Proof.
  intros Hbad. unfold _execute_search. fold (intent_data_of intent).
  unfold bind at 1.
  destruct (PineconeSearchService._initialize w st) as [[[]|e] st1] eqn:Hi.
  2:{ rewrite (search_init_fails w _ _ _ st st1 e Hi). by eexists _, _. }
  rewrite (search_after_init w _ _ _ st st1 Hi).
  destruct (PineconeSearchService.blank_query _) as [[]|e]; [| |by eexists _, _].
  - unfold bind, lift. cbn [_format_products].
    unfold _generate_search_response, bind, lift.
    rewrite (query_description_not_mapping intent Hbad). by eexists _, _.
  - unfold PineconeSearchService.filter_for.
    rewrite intent_data_truthy, build_filter_not_mapping; [by eexists _, _|].
    by rewrite intent_data_attributes.
Qed.

(** When the intent of a turn is a product search whose [attributes] are
    present but not a mapping (a null, say), the search branch cannot run:
    the turn ends with the apology and the error tag, whatever the index
    holds. *)
Theorem search_turn_attributes_not_mapping (msg sid : pystr) (st : service) :
  _decide_action (turn_intent w prompts msg sid st) = Ret ACTION_SEARCH ->
  not_a_mapping (dict_get_or (turn_intent w prompts msg sid st)
                             (str "attributes") (VDict ∅)) ->
  exists e st',
    process_message w prompts msg sid st = (Ret (error_response e), st').
Proof.
  intros Hd Hbad.
  destruct (turn_start w prompts msg sid st) as (st3 & E & _).
  rewrite E. unfold respond, try_except, bind, lift. rewrite Hd.
  unfold _execute_action. rewrite bool_decide_eq_true_2 by reflexivity.
  destruct (execute_search_not_mapping _ st3 Hbad) as (e & st4 & ->).
  by exists e, st4.
Qed.

End NullAttributes.

Lemma search_turn_attributes_not_mapping_witness :
  exists e st',
    BotService.process_message null_attributes_world no_prompts (str "any saree?")
      (str "default") fresh_service
    = (Ret (BotService.error_response e), st').
Proof.
  exact (search_turn_attributes_not_mapping null_attributes_world no_prompts
           (str "any saree?") (str "default") fresh_service eq_refl I).
Defined.

(** ** The request handler *)

Section Requests.
Import Handler.

(** A request is accepted exactly when the text chosen from its body
    (the [text] field, or the [message] field when [text] is missing or
    falsy) is a string that is not blank; the session identifier is then
    the [session_id] field, or ["default"]. *)
Theorem read_request_accepts (d : pydict) (s : pystr) (sid : value) :
  read_request (VDict d) = Ret (s, sid)
  <-> request_text d = VStr s
      /\ forallb py_isspace s = false
      /\ sid = dict_get_or d (str "session_id") (VStr (str "default")).
Proof.
  unfold read_request. split.
  - destruct (request_text d) as [|b|z|f|t|l|d0] eqn:Ht;
      cbn [py_len obind]; try done.
    + rewrite blank_query_str. cbn [obind].
      destruct (forallb py_isspace t) eqn:Hb; [done|].
      by intros [= <- <-].
    + unfold PineconeSearchService.blank_query. by destruct l.
    + unfold PineconeSearchService.blank_query. simpl.
      by destruct (bool_decide (d0 = ∅)).
  - intros (Ht & Hb & ->). rewrite Ht. cbn [py_len obind].
    by rewrite blank_query_str, Hb.
Qed.

(** A [text] made of spaces is truthy, so it hides a usable [message] and
    the request is refused; an empty [text] gives way to the [message]; and
    a null [message] fails on its length before it is checked. *)
Example read_request_blank_text_hides_message :
  read_request (VDict (list_to_map [ (str "text", VStr (str "  "));
                                     (str "message", VStr (str "hello")) ]))
  = Raise ValueError
  /\ read_request (VDict (list_to_map [ (str "text", VStr []);
                                        (str "message", VStr (str "hello")) ]))
     = Ret (str "hello", VStr (str "default"))
  /\ read_request (VDict {[ str "message" := VNone ]}) = Raise TypeError.
Proof. repeat split. Qed.

End Requests.

(** ** Products beyond the fifth *)

Lemma starts_with_app (x post : pystr) : starts_with x (x ++ post) = true.
Proof. induction x as [|a x IH]; simpl; [done|]. by rewrite N.eqb_refl. Qed.

Lemma occurs_in_here (x l : pystr) : starts_with x l = true -> occurs_in x l = true.
Proof. intros H. destruct l; simpl; by rewrite H. Qed.

Lemma contains_text_occurs (x l : pystr) :
  contains_text x l -> occurs_in x l = true.
Proof.
  intros (pre & post & ->). induction pre as [|a pre IH].
  - change ([] ++ x ++ post) with (x ++ post).
    apply occurs_in_here. apply starts_with_app.
  - change ((a :: pre) ++ x ++ post) with (a :: (pre ++ x ++ post)).
    simpl. rewrite IH. apply orb_true_r.
Qed.

(** C10 as stated fails for a product beyond the fifth: only the first
    five products are described in the user prompt, the one part of the
    generation request that depends on the products.  With five hits that
    are out of stock and a sixth hit without stock field, the sixth record
    has [in_stock] set to [True], and the user prompt neither describes a
    sixth product nor says "In Stock" anywhere. *)
Lemma sixth_product_not_labelled :
  metadata bare_match = VDict ∅
  /\ BotService._format_products offline_world six_matches = Ret six_products
  /\ six_products !! 5%nat = Some bare_product
  /\ bare_product !! str "in_stock" = Some (VBool true)
  /\ ~ contains_text (str "Product 6")
                     (BotService.search_user_prompt offline_world (str "saree")
                        six_products)
  /\ ~ contains_text (str "In Stock")
                     (BotService.search_user_prompt offline_world (str "saree")
                        six_products).
Proof.
  split; [reflexivity|]. split; [vm_compute; reflexivity|].
  split; [vm_compute; reflexivity|]. split; [vm_compute; reflexivity|].
  split; intros H; apply contains_text_occurs in H; vm_compute in H;
    discriminate H.
Qed.
